(** * MockUp-Ai-studio: the generation client and the session handlers

    A shallow embedding of [types.ts], [services/geminiService.ts] and the
    event handlers of [App.tsx].

    - JavaScript strings are sequences of UTF-16 code units ([jsstring]).
    - The outside world (the two remote model endpoints, the clock, the
      console, [alert], the DOM and React's state setters) is reached
      through calls; a handler is a finite program [Prog] over these calls,
      with [throw], [try/catch] and [try/finally].
    - [run] executes a program against a [World] that answers the calls,
      threading the component state and recording every call in order. *)

From Stdlib Require Import List NArith ZArith Bool String Ascii Lia.
From Stdlib Require Import DecimalString.
From Stdlib Require DecimalPos DecimalZ.
Import ListNotations.

Local Open Scope N_scope.

(* ================================================================= *)
(** ** JavaScript strings *)

(** A string is the list of its UTF-16 code units. *)
Definition jsstring : Type := list N.

(** An ASCII literal of the source, as code units. *)
Definition lit (s : string) : jsstring :=
  map N_of_ascii (list_ascii_of_string s).

Definition jsstring_eq_dec (a b : jsstring) : {a = b} + {a <> b} :=
  list_eq_dec N.eq_dec a b.

(** [a === b] on strings. *)
Definition strict_eq (a b : jsstring) : bool :=
  if jsstring_eq_dec a b then true else false.

(** ECMAScript WhiteSpace and LineTerminator code units, the set
    [String.prototype.trim] strips. *)
Definition isWhiteSpace (c : N) : bool :=
  (c =? 0x09) || (c =? 0x0B) || (c =? 0x0C) || (c =? 0x20) || (c =? 0xA0)
  || (c =? 0xFEFF) || (c =? 0x1680)
  || ((0x2000 <=? c) && (c <=? 0x200A))
  || (c =? 0x202F) || (c =? 0x205F) || (c =? 0x3000).

Definition isLineTerminator (c : N) : bool :=
  (c =? 0x0A) || (c =? 0x0D) || (c =? 0x2028) || (c =? 0x2029).

Definition isTrimmable (c : N) : bool :=
  isWhiteSpace c || isLineTerminator c.

Fixpoint trimStart (s : jsstring) : jsstring :=
  match s with
  | [] => []
  | c :: r => if isTrimmable c then trimStart r else s
  end.

Definition trimEnd (s : jsstring) : jsstring :=
  rev (trimStart (rev s)).

(** [s.trim()] *)
Definition trim (s : jsstring) : jsstring :=
  trimEnd (trimStart s).

(** [s.split(sep)] for a one-unit separator: never empty, one more piece
    than there are separators. *)
Fixpoint split (sep : N) (s : jsstring) : list jsstring :=
  match s with
  | [] => [[]]
  | c :: r =>
      if c =? sep then [] :: split sep r
      else match split sep r with
           | h :: t => (c :: h) :: t
           | [] => [[c]]
           end
  end.

Definition comma : N := 0x2C.

(** A string in a boolean position: the empty string is falsy. *)
Definition truthy (s : jsstring) : bool :=
  match s with [] => false | _ :: _ => true end.

(** [n.toString()] for an integral number of milliseconds: plain decimal
    digits, with a leading minus sign below zero. *)
Definition toString (n : Z) : jsstring :=
  lit (NilZero.string_of_int (Z.to_int n)).

(* ================================================================= *)
(** ** types.ts *)

Inductive AppMode : Type := MOCKUP | IMAGE_GEN.

Inductive AspectRatio : Type := SQUARE | PORTRAIT | LANDSCAPE | WIDE | TALL.

(** The string value of each enum member. *)
Definition AspectRatio_value (r : AspectRatio) : jsstring :=
  match r with
  | SQUARE => lit "1:1"
  | PORTRAIT => lit "3:4"
  | LANDSCAPE => lit "4:3"
  | WIDE => lit "16:9"
  | TALL => lit "9:16"
  end.

Inductive ImageType : Type := mockup | generation.

Module GeneratedImage.
Record t : Type := mk {
  id : jsstring;
  url : jsstring;
  prompt : jsstring;
  createdAt : Z;
  type : ImageType
}.
End GeneratedImage.

Module MockupPreset.
Record t : Type := mk {
  id : jsstring;
  name : jsstring;
  icon : jsstring;
  promptTemplate : jsstring
}.
End MockupPreset.

(** A thrown value: an [Error] with its message. *)
Inductive JsError : Type :=
| Error (message : jsstring).

(** How an awaited promise settles. *)
Inductive Settled (A : Type) : Type :=
| Fulfilled (value : A)
| Rejected (reason : JsError).
Arguments Fulfilled {A} value.
Arguments Rejected {A} reason.

(* ================================================================= *)
(** ** The remote endpoints (the [@google/genai] client) *)

(** Modelled from the spec: the SDK's declarations of [Modality] and of the
    request and response objects are not among the sources.  Section 6 of
    the specification gives their shape: the image-edit endpoint accepts an
    inline image with its MIME type and an instruction text, is configured
    for image-modality content, and answers with a list of candidates, each
    with a list of content parts, where an image part carries its base64
    data; the text-to-image endpoint accepts a prompt, a count, an output
    format and an aspect ratio, and answers with a list of generated image
    objects, each carrying its image bytes.  The fields the code reads
    through [?.] or tests before use are optional here. *)
Inductive Modality : Type := TEXT | IMAGE | AUDIO.

Module Request.
Inductive Part : Type :=
| inlineData (data : option jsstring) (mimeType : jsstring)
| text (t : jsstring).

Record GenerateContent : Type := mkGenerateContent {
  gc_model : jsstring;
  gc_parts : list Part;
  gc_responseModalities : list Modality
}.

Record GenerateImages : Type := mkGenerateImages {
  gi_model : jsstring;
  gi_prompt : jsstring;
  gi_numberOfImages : Z;
  gi_outputMimeType : jsstring;
  gi_aspectRatio : AspectRatio
}.
End Request.

Module Response.
Record Blob : Type := mkBlob { data : jsstring }.

Record Part : Type := mkPart {
  inlineData : option Blob;
  text : option jsstring
}.

Record Content : Type := mkContent { parts : option (list Part) }.

Record Candidate : Type := mkCandidate { content : option Content }.

Record GenerateContent : Type := mkGenerateContent {
  candidates : option (list Candidate)
}.

Record Image : Type := mkImage { imageBytes : jsstring }.

Record GeneratedImage : Type := mkGeneratedImage { image : Image }.

Record GenerateImages : Type := mkGenerateImages {
  generatedImages : option (list GeneratedImage)
}.
End Response.

(* ================================================================= *)
(** ** The component state and the calls a handler can make *)

(** The [useState] cells of [App]. *)
Record AppState : Type := mkAppState {
  mode : AppMode;
  uploadedImage : option jsstring;
  uploadedMimeType : jsstring;
  prompt : jsstring;
  isGenerating : bool;
  gallery : list GeneratedImage.t;
  selectedPreset : jsstring;
  selectedAspectRatio : AspectRatio
}.

(** The anchor element [downloadImage] builds. *)
Record Anchor : Type := mkAnchor {
  href : jsstring;
  download : jsstring
}.

Inductive Call : Type :=
| GenerateContent (req : Request.GenerateContent)
| GenerateImages (req : Request.GenerateImages)
| ConsoleError (label : option jsstring) (err : JsError)
| Alert (msg : jsstring)
| DateNow
| SetMode (m : AppMode)
| SetUploadedImage (v : option jsstring)
| SetUploadedMimeType (v : jsstring)
| SetPrompt (v : jsstring)
| SetIsGenerating (b : bool)
| SetGalleryPrepend (newImage : GeneratedImage.t)
| SetSelectedPreset (v : jsstring)
| SetSelectedAspectRatio (r : AspectRatio)
| AppendChild (link : Anchor)
| Click (link : Anchor)
| RemoveChild (link : Anchor).

(** What each call hands back to the program. *)
Definition Reply (c : Call) : Type :=
  match c with
  | GenerateContent _ => Settled Response.GenerateContent
  | GenerateImages _ => Settled Response.GenerateImages
  | DateNow => Z
  | _ => unit
  end.

(** A handler body: it returns, throws, or makes a call and goes on with
    the reply. *)
Inductive Prog (A : Type) : Type :=
| Ret (a : A)
| Throw (e : JsError)
| Do (c : Call) (k : Reply c -> Prog A).
Arguments Ret {A} a.
Arguments Throw {A} e.
Arguments Do {A} c k.

Fixpoint bind {A B : Type} (p : Prog A) (f : A -> Prog B) : Prog B :=
  match p with
  | Ret a => f a
  | Throw e => Throw e
  | Do c k => Do c (fun r => bind (k r) f)
  end.

(** [try { p } catch (e) { h e }] *)
Fixpoint tryCatch {A : Type} (p : Prog A) (h : JsError -> Prog A) : Prog A :=
  match p with
  | Ret a => Ret a
  | Throw e => h e
  | Do c k => Do c (fun r => tryCatch (k r) h)
  end.

(** [try { p } finally { f }] *)
Fixpoint tryFinally {A : Type} (p : Prog A) (f : Prog unit) : Prog A :=
  match p with
  | Ret a => bind f (fun _ => Ret a)
  | Throw e => bind f (fun _ => Throw e)
  | Do c k => Do c (fun r => tryFinally (k r) f)
  end.

Definition call (c : Call) : Prog (Reply c) := Do c Ret.

(** [await promise]: the value it fulfils with, or its rejection thrown. *)
Definition await {A : Type} (s : Settled A) : Prog A :=
  match s with
  | Fulfilled v => Ret v
  | Rejected e => Throw e
  end.

Declare Scope prog_scope.
Delimit Scope prog_scope with prog.
Notation "x <- p ;; q" := (bind p (fun x => q))
  (at level 61, p at next level, right associativity) : prog_scope.
Notation "p ;; q" := (bind p (fun _ => q))
  (at level 61, right associativity) : prog_scope.

(* ================================================================= *)
(** ** Running a program *)

(** What the environment does while a handler runs: how each endpoint
    settles a request, and what the clock shows at each reading. *)
Record World : Type := mkWorld {
  generateContent : Request.GenerateContent -> Settled Response.GenerateContent;
  generateImages : Request.GenerateImages -> Settled Response.GenerateImages;
  clock : nat -> Z
}.

(** The state cells, the number of clock readings so far, and the calls
    made so far, most recent first. *)
Record Machine : Type := mkMachine {
  app : AppState;
  ticks : nat;
  trace : list Call
}.

Definition set_mode (v : AppMode) (s : AppState) : AppState :=
  mkAppState v (uploadedImage s) (uploadedMimeType s) (prompt s)
    (isGenerating s) (gallery s) (selectedPreset s) (selectedAspectRatio s).

Definition set_uploadedImage (v : option jsstring) (s : AppState) : AppState :=
  mkAppState (mode s) v (uploadedMimeType s) (prompt s)
    (isGenerating s) (gallery s) (selectedPreset s) (selectedAspectRatio s).

Definition set_uploadedMimeType (v : jsstring) (s : AppState) : AppState :=
  mkAppState (mode s) (uploadedImage s) v (prompt s)
    (isGenerating s) (gallery s) (selectedPreset s) (selectedAspectRatio s).

Definition set_prompt (v : jsstring) (s : AppState) : AppState :=
  mkAppState (mode s) (uploadedImage s) (uploadedMimeType s) v
    (isGenerating s) (gallery s) (selectedPreset s) (selectedAspectRatio s).

Definition set_isGenerating (v : bool) (s : AppState) : AppState :=
  mkAppState (mode s) (uploadedImage s) (uploadedMimeType s) (prompt s)
    v (gallery s) (selectedPreset s) (selectedAspectRatio s).

(** [setGallery(prev => [newImage, ...prev])] *)
Definition prepend_gallery (newImage : GeneratedImage.t) (s : AppState)
  : AppState :=
  mkAppState (mode s) (uploadedImage s) (uploadedMimeType s) (prompt s)
    (isGenerating s) (newImage :: gallery s) (selectedPreset s)
    (selectedAspectRatio s).

Definition set_selectedPreset (v : jsstring) (s : AppState) : AppState :=
  mkAppState (mode s) (uploadedImage s) (uploadedMimeType s) (prompt s)
    (isGenerating s) (gallery s) v (selectedAspectRatio s).

Definition set_selectedAspectRatio (v : AspectRatio) (s : AppState)
  : AppState :=
  mkAppState (mode s) (uploadedImage s) (uploadedMimeType s) (prompt s)
    (isGenerating s) (gallery s) (selectedPreset s) v.

(** The effect of a call on the state cells. *)
Definition update (c : Call) (s : AppState) : AppState :=
  match c with
  | SetMode v => set_mode v s
  | SetUploadedImage v => set_uploadedImage v s
  | SetUploadedMimeType v => set_uploadedMimeType v s
  | SetPrompt v => set_prompt v s
  | SetIsGenerating v => set_isGenerating v s
  | SetGalleryPrepend i => prepend_gallery i s
  | SetSelectedPreset v => set_selectedPreset v s
  | SetSelectedAspectRatio v => set_selectedAspectRatio v s
  | _ => s
  end.

Definition advance (c : Call) (n : nat) : nat :=
  match c with
  | DateNow => S n
  | _ => n
  end.

(** The reply the world gives to a call made at clock reading [n]. *)
Definition answer (w : World) (n : nat) (c : Call) : Reply c :=
  match c return Reply c with
  | GenerateContent req => generateContent w req
  | GenerateImages req => generateImages w req
  | DateNow => clock w n
  | ConsoleError _ _ => tt
  | Alert _ => tt
  | SetMode _ => tt
  | SetUploadedImage _ => tt
  | SetUploadedMimeType _ => tt
  | SetPrompt _ => tt
  | SetIsGenerating _ => tt
  | SetGalleryPrepend _ => tt
  | SetSelectedPreset _ => tt
  | SetSelectedAspectRatio _ => tt
  | AppendChild _ => tt
  | Click _ => tt
  | RemoveChild _ => tt
  end.

Definition perform (c : Call) (m : Machine) : Machine :=
  mkMachine (update c (app m)) (advance c (ticks m)) (c :: trace m).

(** Run a program to completion: the machine it leaves and how it ended
    (a returned value, or a thrown error). *)
Fixpoint run {A : Type} (w : World) (p : Prog A) (m : Machine)
  : Machine * Settled A :=
  match p with
  | Ret a => (m, Fulfilled a)
  | Throw e => (m, Rejected e)
  | Do c k => run w (k (answer w (ticks m) c)) (perform c m)
  end.

Definition exec {A : Type} (w : World) (p : Prog A) (m : Machine) : Machine :=
  fst (run w p m).

Definition result {A : Type} (w : World) (p : Prog A) (m : Machine)
  : Settled A :=
  snd (run w p m).


(** The requests a trace sent to the image-edit endpoint, most recent
    first. *)
Fixpoint contentRequests (t : list Call) : list Request.GenerateContent :=
  match t with
  | [] => []
  | GenerateContent req :: r => req :: contentRequests r
  | _ :: r => contentRequests r
  end.

Fixpoint imagesRequests (t : list Call) : list Request.GenerateImages :=
  match t with
  | [] => []
  | GenerateImages req :: r => req :: imagesRequests r
  | _ :: r => imagesRequests r
  end.

Fixpoint alerts (t : list Call) : list jsstring :=
  match t with
  | [] => []
  | Alert msg :: r => msg :: alerts r
  | _ :: r => alerts r
  end.

(* ================================================================= *)
(** ** services/geminiService.ts *)

Module GeminiService.
Local Open Scope prog_scope.

(** [response.candidates?.[0]?.content?.parts] *)
Definition firstCandidateParts (response : Response.GenerateContent)
  : option (list Response.Part) :=
  match Response.candidates response with
  | None => None
  | Some cs =>
      match nth_error cs 0 with
      | None => None
      | Some c =>
          match Response.content c with
          | None => None
          | Some ct => Response.parts ct
          end
      end
  end.

(** [parts[0]?.inlineData] *)
Definition firstPartInlineData (parts : list Response.Part)
  : option Response.Blob :=
  match nth_error parts 0 with
  | None => None
  | Some p => Response.inlineData p
  end.

Definition generateMockup (base64Image : option jsstring)
    (mimeType : jsstring) (prompt : jsstring) : Prog jsstring :=
  tryCatch
    (settled <- call (GenerateContent
       (Request.mkGenerateContent
          (lit "gemini-2.5-flash-image")
          [Request.inlineData base64Image mimeType; Request.text prompt]
          [IMAGE])) ;;
     response <- await settled ;;
     (* Extract image from response *)
     match firstCandidateParts response with
     | Some parts =>
         match firstPartInlineData parts with
         | Some blob =>
             let base64ImageBytes := Response.data blob in
             Ret (lit "data:image/png;base64," ++ base64ImageBytes)
         | None => Throw (Error (lit "No image generated in response"))
         end
     | None => Throw (Error (lit "No image generated in response"))
     end)
    (fun error =>
       call (ConsoleError (Some (lit "Mockup generation failed:")) error) ;;
       Throw error).

Definition generateImage (prompt : jsstring) (aspectRatio : AspectRatio)
  : Prog jsstring :=
  tryCatch
    (settled <- call (GenerateImages
       (Request.mkGenerateImages
          (lit "imagen-4.0-generate-001")
          prompt
          1%Z
          (lit "image/jpeg")
          aspectRatio)) ;;
     response <- await settled ;;
     match Response.generatedImages response with
     | Some (first :: _) =>
         let base64ImageBytes := Response.imageBytes (Response.image first) in
         Ret (lit "data:image/jpeg;base64," ++ base64ImageBytes)
     | _ => Throw (Error (lit "No image generated"))
     end)
    (fun error =>
       call (ConsoleError (Some (lit "Image generation failed:")) error) ;;
       Throw error).
End GeminiService.

(* ================================================================= *)
(** ** App.tsx *)

Module App.
Local Open Scope prog_scope.

Definition MOCKUP_PRESETS : list MockupPreset.t :=
  [ MockupPreset.mk (lit "mug") (lit "Ceramic Mug") [0x2615]
      (lit "Place this logo realistically on a clean white ceramic coffee mug sitting on a wooden table. Professional product photography.");
    MockupPreset.mk (lit "tshirt") (lit "T-Shirt") [0xD83D; 0xDC55]
      (lit "A high quality photo of a folded black cotton t-shirt with this design printed on the center chest. Studio lighting.");
    MockupPreset.mk (lit "hoodie") (lit "Hoodie") [0xD83E; 0xDDE5]
      (lit "A model wearing a grey streetwear hoodie featuring this logo prominently on the front. Urban setting.");
    MockupPreset.mk (lit "tote") (lit "Tote Bag") [0xD83D; 0xDC5C]
      (lit "A canvas tote bag hanging on a coat rack with this logo printed on the side. Natural lighting.");
    MockupPreset.mk (lit "sticker") (lit "Laptop Sticker") [0xD83D; 0xDCBB]
      (lit "A die-cut vinyl sticker of this image stuck on a silver laptop cover. Close up macro shot.");
    MockupPreset.mk (lit "sign") (lit "Neon Sign") [0x2728]
      (lit "A glowing neon sign on a brick wall in the shape and style of this image. Night time atmosphere.") ].

(** The initial values of the [useState] cells. *)
Definition initialState : AppState :=
  mkAppState MOCKUP None (lit "image/png") [] false [] (lit "mug") SQUARE.

(** The file picked in the input, with what the [FileReader] ends up
    holding in [reader.result]. *)
Record File : Type := mkFile {
  file_type : jsstring;
  reader_result : option jsstring
}.

(** [event.target.files?.[0]], and the [onloadend] callback of the
    reader. *)
Definition handleFileUpload (file : option File) : Prog unit :=
  match file with
  | Some f =>
      let base64String := reader_result f in
      call (SetUploadedImage base64String) ;;
      call (SetUploadedMimeType (file_type f))
  | None => Ret tt
  end.

(** The prompt [handleMockupGenerate] settles on:
    [let finalPrompt = prompt.trim(); if (!finalPrompt) { ... }] *)
Definition finalPrompt (st : AppState) : jsstring :=
  let finalPrompt := trim (prompt st) in
  if negb (truthy finalPrompt) then
    let preset :=
      find (fun p => strict_eq (MockupPreset.id p) (selectedPreset st))
        MOCKUP_PRESETS in
    match preset with
    | Some preset => MockupPreset.promptTemplate preset
    | None => lit "Place this design on a product."
    end
  else finalPrompt.

Definition handleMockupGenerate (st : AppState) : Prog unit :=
  match uploadedImage st with
  | None => Ret tt
  | Some uploaded =>
      if negb (truthy uploaded) then Ret tt
      else
        call (SetIsGenerating true) ;;
        tryFinally
          (tryCatch
             ((* Strip data:image/xyz;base64, prefix *)
              let base64Data := nth_error (split comma uploaded) 1 in
              let finalPrompt := finalPrompt st in
              resultImage <- GeminiService.generateMockup base64Data
                               (uploadedMimeType st) finalPrompt ;;
              now1 <- call DateNow ;;
              now2 <- call DateNow ;;
              let newImage :=
                GeneratedImage.mk (toString now1) resultImage finalPrompt
                  now2 mockup in
              call (SetGalleryPrepend newImage))
             (fun err =>
                call (ConsoleError None err) ;;
                call (Alert
                  (lit "Failed to generate mockup. Please try again."))))
          (call (SetIsGenerating false))
  end.

Definition handleImageGenerate (st : AppState) : Prog unit :=
  if negb (truthy (trim (prompt st))) then Ret tt
  else
    call (SetIsGenerating true) ;;
    tryFinally
      (tryCatch
         (resultImage <- GeminiService.generateImage (prompt st)
                           (selectedAspectRatio st) ;;
          now1 <- call DateNow ;;
          now2 <- call DateNow ;;
          let newImage :=
            GeneratedImage.mk (toString now1) resultImage (prompt st)
              now2 generation in
          call (SetGalleryPrepend newImage))
         (fun err =>
            call (ConsoleError None err) ;;
            call (Alert
              (lit "Failed to generate image. Please try again."))))
      (call (SetIsGenerating false)).

Definition downloadImage (url id : jsstring) : Prog unit :=
  let link := mkAnchor url (lit "mockup-ai-" ++ id ++ lit ".png") in
  call (AppendChild link) ;;
  call (Click link) ;;
  call (RemoveChild link).

(** The [onClick] of a preset button. *)
Definition onClickPreset (preset : MockupPreset.t) : Prog unit :=
  call (SetSelectedPreset (MockupPreset.id preset)) ;;
  call (SetPrompt []).

(** The [onClick] of the two mode-switcher buttons, one per mode. *)
Definition onClickMode (m : AppMode) : Prog unit :=
  call (SetMode m) ;;
  call (SetPrompt []).

(** The [onChange] of both prompt text areas. *)
Definition onChangePrompt (value : jsstring) : Prog unit :=
  call (SetPrompt value).

(** The [onClick] of an aspect-ratio button. *)
Definition onClickAspectRatio (ratio : AspectRatio) : Prog unit :=
  call (SetSelectedAspectRatio ratio).

(** What the user can do to the page. *)
Inductive UiEvent : Type :=
| FileChosen (file : option File)
| GenerateMockupClicked
| GenerateImageClicked
| DownloadClicked (item : GeneratedImage.t)
| PresetClicked (preset : MockupPreset.t)
| ModeClicked (m : AppMode)
| PromptChanged (value : jsstring)
| AspectRatioClicked (ratio : AspectRatio).

(** The handler an event runs, closed over the state of the render the
    event happens in. *)
Definition handler (ev : UiEvent) (st : AppState) : Prog unit :=
  match ev with
  | FileChosen file => handleFileUpload file
  | GenerateMockupClicked => handleMockupGenerate st
  | GenerateImageClicked => handleImageGenerate st
  | DownloadClicked item =>
      downloadImage (GeneratedImage.url item) (GeneratedImage.id item)
  | PresetClicked preset => onClickPreset preset
  | ModeClicked m => onClickMode m
  | PromptChanged value => onChangePrompt value
  | AspectRatioClicked ratio => onClickAspectRatio ratio
  end.

Definition dispatch (w : World) (ev : UiEvent) (m : Machine) : Machine :=
  exec w (handler ev (app m)) m.

(** A session: events in order, each with the world it meets. *)
Fixpoint play (evs : list (World * UiEvent)) (m : Machine) : Machine :=
  match evs with
  | [] => m
  | (w, ev) :: rest => play rest (dispatch w ev m)
  end.

(** A freshly mounted page. *)
Definition mount (st : AppState) : Machine := mkMachine st 0 [].

(** [disabled={!uploadedImage || isGenerating}] on the Generate Mockup
    button. *)
Definition mockupButtonDisabled (st : AppState) : bool :=
  negb (match uploadedImage st with
        | Some uploaded => truthy uploaded
        | None => false
        end)
  || isGenerating st.

(** [disabled={!prompt.trim() || isGenerating}] on the Generate Image
    button. *)
Definition imageButtonDisabled (st : AppState) : bool :=
  negb (truthy (trim (prompt st))) || isGenerating st.

(** [selectedPreset === preset.id], the test that highlights a preset
    button. *)
Definition presetHighlighted (st : AppState) (preset : MockupPreset.t)
  : bool :=
  strict_eq (selectedPreset st) (MockupPreset.id preset).
End App.

(* ================================================================= *)
(** ** Vocabulary of the specification *)

(** How a program ends when run on a freshly mounted page. *)
Definition outcome {A : Type} (w : World) (p : Prog A) : Settled A :=
  result w p (App.mount App.initialState).

(** An image part of a response is a part that carries inline data. *)
Definition isImagePart (p : Response.Part) : bool :=
  match Response.inlineData p with
  | Some _ => true
  | None => false
  end.

(** The specification's reading of the image-edit response: the first
    inline image part among the parts of the first candidate. *)
Definition firstInlineImagePart (response : Response.GenerateContent)
  : option Response.Part :=
  match GeminiService.firstCandidateParts response with
  | Some parts => find isImagePart parts
  | None => None
  end.

(** The request object [generateMockup] passes to the image-edit endpoint. *)
Definition mockupRequest (base64Image : option jsstring)
    (mimeType prompt : jsstring) : Request.GenerateContent :=
  Request.mkGenerateContent (lit "gemini-2.5-flash-image")
    [Request.inlineData base64Image mimeType; Request.text prompt] [IMAGE].

(** The request object [generateImage] passes to the text-to-image
    endpoint. *)
Definition imageRequest (prompt : jsstring) (aspectRatio : AspectRatio)
  : Request.GenerateImages :=
  Request.mkGenerateImages (lit "imagen-4.0-generate-001") prompt 1%Z
    (lit "image/jpeg") aspectRatio.

(** The base64 payload [handleMockupGenerate] cuts out of the uploaded data
    URI: [uploadedImage.split(',')[1]]. *)
Definition base64Of (uploaded : jsstring) : option jsstring :=
  nth_error (split comma uploaded) 1.

(** The service call a mockup submission makes from state [st]. *)
Definition mockupCall (st : AppState) (uploaded : jsstring) : Prog jsstring :=
  GeminiService.generateMockup (base64Of uploaded) (uploadedMimeType st)
    (App.finalPrompt st).

(** The service call a generation submission makes from state [st]. *)
Definition imageCall (st : AppState) : Prog jsstring :=
  GeminiService.generateImage (prompt st) (selectedAspectRatio st).

(** A submission that goes through: its guard passes and the service call
    returns an image. *)
Definition succeeds (w : World) (ev : App.UiEvent) (st : AppState) : Prop :=
  match ev with
  | App.GenerateMockupClicked =>
      exists uploaded url,
        uploadedImage st = Some uploaded /\ truthy uploaded = true /\
        outcome w (mockupCall st uploaded) = Fulfilled url
  | App.GenerateImageClicked =>
      truthy (trim (prompt st)) = true /\
      exists url, outcome w (imageCall st) = Fulfilled url
  | _ => False
  end.

Fixpoint allSucceed (subs : list (World * App.UiEvent)) (m : Machine) : Prop :=
  match subs with
  | [] => True
  | (w, ev) :: rest =>
      succeeds w ev (app m) /\ allSucceed rest (App.dispatch w ev m)
  end.

(** A world in which the image-edit endpoint answers [r], the
    text-to-image endpoint answers [i], and the clock starts at [t0] and
    moves one millisecond per reading. *)
Definition steadyWorld (r : Settled Response.GenerateContent)
    (i : Settled Response.GenerateImages) (t0 : Z) : World :=
  mkWorld (fun _ => r) (fun _ => i) (fun n => (t0 + Z.of_nat n)%Z).

(** An image-edit response with one candidate holding the given parts. *)
Definition contentResponse (ps : list Response.Part)
  : Response.GenerateContent :=
  Response.mkGenerateContent
    (Some [Response.mkCandidate (Some (Response.mkContent (Some ps)))]).

Definition imagePart (data : jsstring) : Response.Part :=
  Response.mkPart (Some (Response.mkBlob data)) None.

Definition textPart (t : jsstring) : Response.Part :=
  Response.mkPart None (Some t).

(** A text-to-image response with the given image payloads. *)
Definition imagesResponse (bs : list jsstring) : Response.GenerateImages :=
  Response.mkGenerateImages
    (Some (map (fun b => Response.mkGeneratedImage (Response.mkImage b)) bs)).

(** A string made of white space and line terminators only. *)
Definition blank (s : jsstring) : bool := forallb isTrimmable s.

(** A string that does not begin with a trimmable unit. *)
Definition startsClean (s : jsstring) : bool :=
  match s with
  | [] => true
  | c :: _ => negb (isTrimmable c)
  end.

(** A string without a comma. *)
Definition commaFree (s : jsstring) : bool :=
  forallb (fun c => negb (c =? comma)) s.

(** An event the rendered page can produce: preset buttons exist only for
    the presets of the catalog. *)
Definition rendered (ev : App.UiEvent) : Prop :=
  match ev with
  | App.PresetClicked preset => In preset App.MOCKUP_PRESETS
  | _ => True
  end.

(** The selected preset id names a preset of the catalog. *)
Definition selectionKnown (st : AppState) : Prop :=
  exists preset,
    In preset App.MOCKUP_PRESETS /\
    MockupPreset.id preset = selectedPreset st.

(** The labels and messages of the failure paths. *)
Definition mockupFailedLabel : jsstring := lit "Mockup generation failed:".
Definition imageFailedLabel : jsstring := lit "Image generation failed:".
Definition mockupAlert : jsstring :=
  lit "Failed to generate mockup. Please try again.".
Definition imageAlert : jsstring :=
  lit "Failed to generate image. Please try again.".
Definition fallbackPrompt : jsstring := lit "Place this design on a product.".

(** The gallery entry a submission builds from the service result [u] when
    the clock has been read [n] times before. *)
Definition newEntry (w : World) (n : nat) (u promptText : jsstring)
    (kind : ImageType) : GeneratedImage.t :=
  GeneratedImage.mk (toString (clock w n)) u promptText (clock w (S n)) kind.

(* ================================================================= *)
(** ** Running composed programs *)

Arguments lit : simpl never.
Arguments toString : simpl never.
Arguments trim : simpl never.
Arguments split : simpl never.
Arguments App.finalPrompt : simpl never.

Section RunLaws.
Context {A B : Type} (w : World).

Lemma run_bind (p : Prog A) (f : A -> Prog B) (m : Machine) :
  run w (bind p f) m =
  match run w p m with
  | (m', Fulfilled a) => run w (f a) m'
  | (m', Rejected e) => (m', Rejected e)
  end.
Proof.
  revert m. induction p as [a | e | c k IH]; intro m; simpl.
  - reflexivity.
  - reflexivity.
  - apply IH.
Qed.

Lemma run_tryCatch (p : Prog A) (h : JsError -> Prog A) (m : Machine) :
  run w (tryCatch p h) m =
  match run w p m with
  | (m', Fulfilled a) => (m', Fulfilled a)
  | (m', Rejected e) => run w (h e) m'
  end.
Proof.
  revert m. induction p as [a | e | c k IH]; intro m; simpl.
  - reflexivity.
  - reflexivity.
  - apply IH.
Qed.
End RunLaws.

Lemma run_tryFinally {A : Type} (w : World) (p : Prog A) (f : Prog unit)
    (m : Machine) :
  run w (tryFinally p f) m =
  match run w p m with
  | (m', r) =>
      match run w f m' with
      | (m'', Fulfilled _) => (m'', r)
      | (m'', Rejected e) => (m'', Rejected e)
      end
  end.
Proof.
  revert m. induction p as [a | e | c k IH]; intro m; simpl.
  - rewrite run_bind. destruct (run w f m) as [m' [u | e]]; reflexivity.
  - rewrite run_bind. destruct (run w f m) as [m' [u | e']]; reflexivity.
  - apply IH.
Qed.

(* ================================================================= *)
(** ** The service calls, run *)

(** The service call sends its one request, logs on failure, and leaves
    the state cells and the clock alone; how it ends does not depend on the
    machine it starts from. *)
Lemma run_generateMockup (w : World) (b64 : option jsstring)
    (mime p : jsstring) (m : Machine) :
  run w (GeminiService.generateMockup b64 mime p) m =
  let m1 := perform (GenerateContent (mockupRequest b64 mime p)) m in
  match outcome w (GeminiService.generateMockup b64 mime p) with
  | Fulfilled u => (m1, Fulfilled u)
  | Rejected e =>
      (perform (ConsoleError (Some mockupFailedLabel) e) m1, Rejected e)
  end.
Proof.
  unfold outcome, result, GeminiService.generateMockup, mockupRequest. simpl.
  destruct (generateContent w _) as [resp | e]; simpl; [| reflexivity].
  destruct (GeminiService.firstCandidateParts resp) as [ps |]; simpl;
    [| reflexivity].
  destruct (GeminiService.firstPartInlineData ps) as [b |]; reflexivity.
Qed.

Lemma run_generateImage (w : World) (p : jsstring) (r : AspectRatio)
    (m : Machine) :
  run w (GeminiService.generateImage p r) m =
  let m1 := perform (GenerateImages (imageRequest p r)) m in
  match outcome w (GeminiService.generateImage p r) with
  | Fulfilled u => (m1, Fulfilled u)
  | Rejected e =>
      (perform (ConsoleError (Some imageFailedLabel) e) m1, Rejected e)
  end.
Proof.
  unfold outcome, result, GeminiService.generateImage, imageRequest. simpl.
  destruct (generateImages w _) as [resp | e]; simpl; [| reflexivity].
  destruct (Response.generatedImages resp) as [[| first rest] |];
    reflexivity.
Qed.

(* ================================================================= *)
(** ** The submission handlers, run *)

Lemma dispatch_mockup (w : World) (m : Machine) (uploaded : jsstring) :
  uploadedImage (app m) = Some uploaded ->
  truthy uploaded = true ->
  App.dispatch w App.GenerateMockupClicked m =
  let st := app m in
  let fp := App.finalPrompt st in
  let sent :=
    GenerateContent (mockupRequest (base64Of uploaded) (uploadedMimeType st) fp)
  in
  match outcome w (mockupCall st uploaded) with
  | Fulfilled u =>
      let img := newEntry w (ticks m) u fp mockup in
      mkMachine
        (set_isGenerating false
           (prepend_gallery img (set_isGenerating true st)))
        (S (S (ticks m)))
        (SetIsGenerating false :: SetGalleryPrepend img :: DateNow :: DateNow
           :: sent :: SetIsGenerating true :: trace m)
  | Rejected e =>
      mkMachine
        (set_isGenerating false (set_isGenerating true st))
        (ticks m)
        (SetIsGenerating false :: Alert mockupAlert :: ConsoleError None e
           :: ConsoleError (Some mockupFailedLabel) e
           :: sent :: SetIsGenerating true :: trace m)
  end.
Proof.
  intros Hup Htr.
  unfold App.dispatch, exec, App.handler, App.handleMockupGenerate.
  rewrite Hup, Htr. cbn [negb].
  rewrite run_bind. cbn [call run fst snd answer perform update advance].
  rewrite run_tryFinally, run_tryCatch, run_bind, run_generateMockup.
  unfold mockupCall, base64Of.
  destruct (outcome w _) as [u | e]; reflexivity.
Qed.

Lemma dispatch_mockup_blocked (w : World) (m : Machine) :
  match uploadedImage (app m) with
  | Some uploaded => truthy uploaded = false
  | None => True
  end ->
  App.dispatch w App.GenerateMockupClicked m = m.
Proof.
  unfold App.dispatch, exec, App.handler, App.handleMockupGenerate.
  destruct (uploadedImage (app m)) as [u |]; intro H.
  - rewrite H. reflexivity.
  - reflexivity.
Qed.

Lemma dispatch_image (w : World) (m : Machine) :
  truthy (trim (prompt (app m))) = true ->
  App.dispatch w App.GenerateImageClicked m =
  let st := app m in
  let sent :=
    GenerateImages (imageRequest (prompt st) (selectedAspectRatio st)) in
  match outcome w (imageCall st) with
  | Fulfilled u =>
      let img := newEntry w (ticks m) u (prompt st) generation in
      mkMachine
        (set_isGenerating false
           (prepend_gallery img (set_isGenerating true st)))
        (S (S (ticks m)))
        (SetIsGenerating false :: SetGalleryPrepend img :: DateNow :: DateNow
           :: sent :: SetIsGenerating true :: trace m)
  | Rejected e =>
      mkMachine
        (set_isGenerating false (set_isGenerating true st))
        (ticks m)
        (SetIsGenerating false :: Alert imageAlert :: ConsoleError None e
           :: ConsoleError (Some imageFailedLabel) e
           :: sent :: SetIsGenerating true :: trace m)
  end.
Proof.
  intros Htr.
  unfold App.dispatch, exec, App.handler, App.handleImageGenerate.
  rewrite Htr. cbn [negb].
  rewrite run_bind. cbn [call run fst snd answer perform update advance].
  rewrite run_tryFinally, run_tryCatch, run_bind, run_generateImage.
  unfold imageCall.
  destruct (outcome w _) as [u | e]; reflexivity.
Qed.

Lemma dispatch_image_blocked (w : World) (m : Machine) :
  truthy (trim (prompt (app m))) = false ->
  App.dispatch w App.GenerateImageClicked m = m.
Proof.
  unfold App.dispatch, exec, App.handler, App.handleImageGenerate.
  intro H. rewrite H. reflexivity.
Qed.

(* ================================================================= *)
(** ** The preset catalog *)

Lemma strict_eq_refl (a : jsstring) : strict_eq a a = true.
Proof.
  unfold strict_eq. destruct (jsstring_eq_dec a a); congruence.
Qed.

Lemma strict_eq_neq (a b : jsstring) : a <> b -> strict_eq a b = false.
Proof.
  intro H. unfold strict_eq. destruct (jsstring_eq_dec a b); congruence.
Qed.

(** Preset ids are pairwise distinct, so looking one up by its id finds
    that very preset. *)
Lemma find_preset_by_id (preset : MockupPreset.t) :
  In preset App.MOCKUP_PRESETS ->
  find (fun p => strict_eq (MockupPreset.id p) (MockupPreset.id preset))
    App.MOCKUP_PRESETS = Some preset.
Proof.
  intro Hin. unfold App.MOCKUP_PRESETS in Hin. simpl in Hin.
  repeat (destruct Hin as [<- | Hin]; [vm_compute; reflexivity |]).
  contradiction.
Qed.

Lemma find_preset_unknown (sel : jsstring) :
  (forall preset, In preset App.MOCKUP_PRESETS ->
                  MockupPreset.id preset <> sel) ->
  find (fun p => strict_eq (MockupPreset.id p) sel) App.MOCKUP_PRESETS = None.
Proof.
  generalize App.MOCKUP_PRESETS as l.
  induction l as [| p l IH]; intro H; simpl.
  - reflexivity.
  - rewrite strict_eq_neq by (apply H; left; reflexivity).
    apply IH. intros q Hq. apply H. right. exact Hq.
Qed.

Lemma truthy_false_iff (s : jsstring) : truthy s = false <-> s = [].
Proof.
  destruct s; simpl; split; congruence.
Qed.

Lemma truthy_true_iff (s : jsstring) : truthy s = true <-> s <> [].
Proof.
  destruct s; simpl; split; congruence.
Qed.

(** The prompt-resolution policy of [handleMockupGenerate], case by case. *)
Lemma finalPrompt_custom (st : AppState) :
  trim (prompt st) <> [] -> App.finalPrompt st = trim (prompt st).
Proof.
  intro H. apply truthy_true_iff in H. unfold App.finalPrompt.
  rewrite H. reflexivity.
Qed.

Lemma finalPrompt_preset (st : AppState) (preset : MockupPreset.t) :
  trim (prompt st) = [] ->
  In preset App.MOCKUP_PRESETS ->
  MockupPreset.id preset = selectedPreset st ->
  App.finalPrompt st = MockupPreset.promptTemplate preset.
Proof.
  intros H Hin Hid. unfold App.finalPrompt. rewrite H. simpl truthy.
  cbn [negb]. rewrite <- Hid, (find_preset_by_id preset Hin). reflexivity.
Qed.

Lemma finalPrompt_fallback (st : AppState) :
  trim (prompt st) = [] ->
  (forall preset, In preset App.MOCKUP_PRESETS ->
                  MockupPreset.id preset <> selectedPreset st) ->
  App.finalPrompt st = fallbackPrompt.
Proof.
  intros H Hno. unfold App.finalPrompt. rewrite H. simpl truthy.
  cbn [negb]. rewrite (find_preset_unknown _ Hno). reflexivity.
Qed.

(* ================================================================= *)
(** ** The image-edit call *)

(** What [generateMockup] does with each kind of answer: it returns the
    data of the first part of the first candidate when that part carries
    inline data, rethrows a rejection of the endpoint, and throws in
    every other case. *)
Lemma generateMockup_first_part (w : World) (b64 : option jsstring)
    (mime p : jsstring) (resp : Response.GenerateContent)
    (parts : list Response.Part) (blob : Response.Blob) :
  generateContent w (mockupRequest b64 mime p) = Fulfilled resp ->
  GeminiService.firstCandidateParts resp = Some parts ->
  GeminiService.firstPartInlineData parts = Some blob ->
  outcome w (GeminiService.generateMockup b64 mime p) =
  Fulfilled (lit "data:image/png;base64," ++ Response.data blob).
Proof.
  intros Hw Hc Hp.
  unfold outcome, result, GeminiService.generateMockup. simpl.
  unfold mockupRequest in Hw. rewrite Hw. simpl. rewrite Hc. simpl.
  rewrite Hp. reflexivity.
Qed.

Lemma generateMockup_rethrows (w : World) (b64 : option jsstring)
    (mime p : jsstring) (e : JsError) :
  generateContent w (mockupRequest b64 mime p) = Rejected e ->
  outcome w (GeminiService.generateMockup b64 mime p) = Rejected e.
Proof.
  intros Hw.
  unfold outcome, result, GeminiService.generateMockup. simpl.
  unfold mockupRequest in Hw. rewrite Hw. reflexivity.
Qed.

Lemma generateMockup_first_part_not_image (w : World) (b64 : option jsstring)
    (mime p : jsstring) (resp : Response.GenerateContent) :
  generateContent w (mockupRequest b64 mime p) = Fulfilled resp ->
  match GeminiService.firstCandidateParts resp with
  | Some parts => GeminiService.firstPartInlineData parts = None
  | None => True
  end ->
  outcome w (GeminiService.generateMockup b64 mime p) =
  Rejected (Error (lit "No image generated in response")).
Proof.
  intros Hw Hc.
  unfold outcome, result, GeminiService.generateMockup. simpl.
  unfold mockupRequest in Hw. rewrite Hw. simpl.
  destruct (GeminiService.firstCandidateParts resp) as [ps |]; simpl.
  - rewrite Hc. reflexivity.
  - reflexivity.
Qed.

(** C1.  The claim: [generateMockup] returns the first inline image part of
    the first candidate and throws exactly when the response has no image
    part (or the call errors).  On a response whose first candidate holds
    a text part followed by an image part, the response does contain an
    inline image part, yet [generateMockup] throws
    "No image generated in response": it only ever looks at [parts[0]]. *)
Theorem generateMockup_misses_image_after_text :
  forall (b64 : option jsstring) (mime p : jsstring)
         (gi : Request.GenerateImages -> Settled Response.GenerateImages)
         (clk : nat -> Z) (m : Machine),
    let resp :=
      contentResponse
        [textPart (lit "Here is your mockup."); imagePart (lit "iVBORw0KGgo=")]
    in
    let w := mkWorld (fun _ => Fulfilled resp) gi clk in
    firstInlineImagePart resp = Some (imagePart (lit "iVBORw0KGgo=")) /\
    result w (GeminiService.generateMockup b64 mime p) m =
    Rejected (Error (lit "No image generated in response")).
Proof.
  intros b64 mime p gi clk m resp w. split.
  - reflexivity.
  - unfold result. rewrite run_generateMockup.
    rewrite (generateMockup_first_part_not_image w b64 mime p resp).
    + reflexivity.
    + reflexivity.
    + reflexivity.
Qed.

(* ================================================================= *)
(** ** Mockup submissions: the resolved prompt *)

(** C2, as stated, fails.  With the hoodie preset selected, a free-text
    prompt of one space is not empty, yet the hoodie template is what is
    sent and stored; and a prompt with blanks around it is sent and stored
    without them, not verbatim. *)
Lemma resolved_prompt_not_verbatim :
  let w :=
    steadyWorld (Fulfilled (contentResponse [imagePart (lit "QUJD")]))
      (Rejected (Error [])) 1700000000000 in
  let page (typed : jsstring) :=
    App.mount
      (mkAppState MOCKUP (Some (lit "data:image/png;base64,iVBORw0KGgo="))
         (lit "image/png") typed false [] (lit "hoodie") SQUARE) in
  let hoodie :=
    lit "A model wearing a grey streetwear hoodie featuring this logo prominently on the front. Urban setting." in
  let blank := lit " " in
  let padded := lit " Add a vintage filter to this image " in
  let after (typed : jsstring) :=
    App.dispatch w App.GenerateMockupClicked (page typed) in
  (blank <> [] /\
   contentRequests (trace (after blank)) =
     [mockupRequest (Some (lit "iVBORw0KGgo=")) (lit "image/png") hoodie] /\
   map GeneratedImage.prompt (gallery (app (after blank))) = [hoodie] /\
   hoodie <> blank)
  /\
  (padded <> [] /\
   contentRequests (trace (after padded)) =
     [mockupRequest (Some (lit "iVBORw0KGgo=")) (lit "image/png")
        (lit "Add a vintage filter to this image")] /\
   map GeneratedImage.prompt (gallery (app (after padded))) =
     [lit "Add a vintage filter to this image"] /\
   lit "Add a vintage filter to this image" <> padded).
Proof.
  cbv zeta. split; (split; [| split; [| split]]);
    solve [vm_compute; reflexivity | vm_compute; discriminate].
Qed.

(** C2, amended.  For every mockup submission, the prompt sent to the
    image-edit call and stored in the new gallery entry is the free-text
    prompt with leading and trailing white space trimmed off when that
    leaves something, with no concatenation of the preset template; when
    the trimmed prompt is empty, it is the template of the selected
    preset. *)
Theorem resolved_prompt_trimmed_or_preset :
  forall (w : World) (m : Machine) (uploaded : jsstring),
    uploadedImage (app m) = Some uploaded ->
    truthy uploaded = true ->
    let st := app m in
    let m' := App.dispatch w App.GenerateMockupClicked m in
    exists resolved : jsstring,
      contentRequests (trace m') =
        mockupRequest (base64Of uploaded) (uploadedMimeType st) resolved
          :: contentRequests (trace m) /\
      (forall u, outcome w (mockupCall st uploaded) = Fulfilled u ->
         exists newImage,
           gallery (app m') = newImage :: gallery st /\
           GeneratedImage.prompt newImage = resolved) /\
      (trim (prompt st) <> [] -> resolved = trim (prompt st)) /\
      (trim (prompt st) = [] ->
         forall preset, In preset App.MOCKUP_PRESETS ->
           MockupPreset.id preset = selectedPreset st ->
           resolved = MockupPreset.promptTemplate preset).
Proof.
  intros w m uploaded Hup Htr st m'.
  exists (App.finalPrompt st). subst m'.
  rewrite (dispatch_mockup w m uploaded Hup Htr). fold st. cbv zeta.
  split; [| split; [| split]].
  - destruct (outcome w (mockupCall st uploaded)); reflexivity.
  - intros u Hu. rewrite Hu. eexists. split; reflexivity.
  - apply finalPrompt_custom.
  - intros He preset Hin Hid. apply finalPrompt_preset; assumption.
Qed.

Lemma resolved_prompt_trimmed_or_preset_witness :
  let w :=
    steadyWorld (Fulfilled (contentResponse [imagePart (lit "QUJD")]))
      (Rejected (Error [])) 1700000000000 in
  let uploaded := lit "data:image/png;base64,iVBORw0KGgo=" in
  let m :=
    App.mount
      (mkAppState MOCKUP (Some uploaded) (lit "image/png")
         (lit " Add a vintage filter to this image ") false []
         (lit "hoodie") SQUARE) in
  let m' := App.dispatch w App.GenerateMockupClicked m in
  (uploadedImage (app m) = Some uploaded /\ truthy uploaded = true) /\
  exists newImage,
    gallery (app m') = [newImage] /\
    GeneratedImage.prompt newImage = lit "Add a vintage filter to this image".
Proof.
  intros w uploaded m m'. split.
  - split; reflexivity.
  - destruct (resolved_prompt_trimmed_or_preset w m uploaded
                eq_refl eq_refl) as (resolved & _ & Hstored & Hcustom & _).
    destruct (Hstored (lit "data:image/png;base64," ++ lit "QUJD") eq_refl)
      as (newImage & Hg & Hp).
    exists newImage. split.
    + exact Hg.
    + rewrite Hp. rewrite Hcustom.
      * vm_compute. reflexivity.
      * vm_compute. discriminate.
Defined.

(* ================================================================= *)
(** ** Failed submissions *)

(** A failed submission raises its one alert; a successful one raises
    none. *)
Lemma mockup_alerts (w : World) (m : Machine) (uploaded : jsstring) :
  uploadedImage (app m) = Some uploaded ->
  truthy uploaded = true ->
  alerts (trace (App.dispatch w App.GenerateMockupClicked m)) =
  match outcome w (mockupCall (app m) uploaded) with
  | Fulfilled _ => alerts (trace m)
  | Rejected _ => mockupAlert :: alerts (trace m)
  end.
Proof.
  intros Hup Htr. rewrite (dispatch_mockup w m uploaded Hup Htr). cbv zeta.
  destruct (outcome w (mockupCall (app m) uploaded)); reflexivity.
Qed.

Lemma image_alerts (w : World) (m : Machine) :
  truthy (trim (prompt (app m))) = true ->
  alerts (trace (App.dispatch w App.GenerateImageClicked m)) =
  match outcome w (imageCall (app m)) with
  | Fulfilled _ => alerts (trace m)
  | Rejected _ => imageAlert :: alerts (trace m)
  end.
Proof.
  intros Htr. rewrite (dispatch_image w m Htr). cbv zeta.
  destruct (outcome w (imageCall (app m))); reflexivity.
Qed.

(** C3.  A mockup or generation submission (the handler's guard passes)
    always leaves the busy flag false; and when the service call throws,
    the gallery is what it was before. *)
Theorem failed_submission_keeps_gallery_and_clears_busy :
  forall (w : World) (m : Machine),
    (forall uploaded,
        uploadedImage (app m) = Some uploaded ->
        truthy uploaded = true ->
        let m' := App.dispatch w App.GenerateMockupClicked m in
        isGenerating (app m') = false /\
        (forall e, outcome w (mockupCall (app m) uploaded) = Rejected e ->
                   gallery (app m') = gallery (app m)))
    /\
    (truthy (trim (prompt (app m))) = true ->
     let m' := App.dispatch w App.GenerateImageClicked m in
     isGenerating (app m') = false /\
     (forall e, outcome w (imageCall (app m)) = Rejected e ->
                gallery (app m') = gallery (app m))).
Proof.
  intros w m. split.
  - intros uploaded Hup Htr m'. subst m'.
    rewrite (dispatch_mockup w m uploaded Hup Htr). cbv zeta.
    destruct (outcome w (mockupCall (app m) uploaded)) as [u | e].
    + split; [reflexivity | discriminate].
    + split; reflexivity.
  - intros Htr m'. subst m'.
    rewrite (dispatch_image w m Htr). cbv zeta.
    destruct (outcome w (imageCall (app m))) as [u | e].
    + split; [reflexivity | discriminate].
    + split; reflexivity.
Qed.

Lemma failed_submission_keeps_gallery_and_clears_busy_witness :
  let w :=
    steadyWorld (Fulfilled (contentResponse []))
      (Fulfilled (imagesResponse [])) 1700000000000 in
  let uploaded := lit "data:image/png;base64,iVBORw0KGgo=" in
  let old := GeneratedImage.mk (lit "1") (lit "data:,") (lit "old") 1 mockup in
  let m :=
    mkMachine
      (mkAppState MOCKUP (Some uploaded) (lit "image/png") (lit "a red car")
         true [old] (lit "mug") WIDE) 0 [] in
  (uploadedImage (app m) = Some uploaded /\ truthy uploaded = true /\
   truthy (trim (prompt (app m))) = true) /\
  (isGenerating (app (App.dispatch w App.GenerateMockupClicked m)) = false /\
   gallery (app (App.dispatch w App.GenerateMockupClicked m)) = [old]) /\
  (isGenerating (app (App.dispatch w App.GenerateImageClicked m)) = false /\
   gallery (app (App.dispatch w App.GenerateImageClicked m)) = [old]).
Proof.
  intros w uploaded old m.
  destruct (failed_submission_keeps_gallery_and_clears_busy w m)
    as [Hmock Himg].
  split; [split; [| split]; reflexivity |]. split.
  - destruct (Hmock uploaded eq_refl eq_refl) as [Hbusy Hgal].
    split; [exact Hbusy |].
    exact (Hgal (Error (lit "No image generated in response")) eq_refl).
  - destruct (Himg eq_refl) as [Hbusy Hgal].
    split; [exact Hbusy |].
    exact (Hgal (Error (lit "No image generated")) eq_refl).
Defined.

(* ================================================================= *)
(** ** Successful submissions and the gallery *)

(** A submission that goes through puts exactly one new entry in front of
    the gallery. *)
Lemma dispatch_succeeds (w : World) (ev : App.UiEvent) (m : Machine) :
  succeeds w ev (app m) ->
  exists newImage,
    gallery (app (App.dispatch w ev m)) = newImage :: gallery (app m).
Proof.
  destruct ev; simpl; try contradiction.
  - intros (uploaded & u & Hup & Htr & Hu).
    rewrite (dispatch_mockup w m uploaded Hup Htr). cbv zeta. rewrite Hu.
    eexists. reflexivity.
  - intros (Htr & u & Hu).
    rewrite (dispatch_image w m Htr). cbv zeta. rewrite Hu.
    eexists. reflexivity.
Qed.

(** Whatever the user does, and however the endpoints answer, an event
    only ever adds entries in front of the gallery: nothing is removed,
    reordered or changed in place. *)
Lemma dispatch_gallery_grows (w : World) (ev : App.UiEvent) (m : Machine) :
  exists news,
    gallery (app (App.dispatch w ev m)) = news ++ gallery (app m).
Proof.
  destruct ev as [file | | | item | preset | target | value | ratio].
  - destruct file; exists []; reflexivity.
  - destruct (uploadedImage (app m)) as [uploaded |] eqn:Hup.
    + destruct (truthy uploaded) eqn:Htr.
      * rewrite (dispatch_mockup w m uploaded Hup Htr). cbv zeta.
        destruct (outcome w (mockupCall (app m) uploaded)) as [u | e].
        -- exists [newEntry w (ticks m) u (App.finalPrompt (app m)) mockup].
           reflexivity.
        -- exists []. reflexivity.
      * rewrite dispatch_mockup_blocked by (rewrite Hup; exact Htr).
        exists []. reflexivity.
    + rewrite dispatch_mockup_blocked by (rewrite Hup; exact I).
      exists []. reflexivity.
  - destruct (truthy (trim (prompt (app m)))) eqn:Htr.
    + rewrite (dispatch_image w m Htr). cbv zeta.
      destruct (outcome w (imageCall (app m))) as [u | e].
      * exists [newEntry w (ticks m) u (prompt (app m)) generation].
        reflexivity.
      * exists []. reflexivity.
    + rewrite (dispatch_image_blocked w m Htr). exists []. reflexivity.
  - exists []. reflexivity.
  - exists []. reflexivity.
  - exists []. reflexivity.
  - exists []. reflexivity.
  - exists []. reflexivity.
Qed.

Lemma play_gallery_grows (evs : list (World * App.UiEvent)) (m : Machine) :
  exists news,
    gallery (app (App.play evs m)) = news ++ gallery (app m).
Proof.
  revert m. induction evs as [| [w ev] rest IH]; intro m; simpl.
  - exists []. reflexivity.
  - destruct (IH (App.dispatch w ev m)) as [later Hlater].
    destruct (dispatch_gallery_grows w ev m) as [first Hfirst].
    exists (later ++ first). rewrite Hlater, Hfirst. apply app_assoc.
Qed.






(** C4.  Along any sequence of successful submissions, mockup or
    generation, there is one new entry per submission; after the first [k]
    of them the gallery is those [k] entries, newest first, in front of the
    gallery the sequence started from, which is left as it was. *)
Theorem successful_submissions_prepend :
  forall (subs : list (World * App.UiEvent)) (m : Machine),
    allSucceed subs m ->
    exists news : list GeneratedImage.t,
      List.length news = List.length subs /\
      (forall k : nat,
          gallery (app (App.play (firstn k subs) m)) =
          rev (firstn k news) ++ gallery (app m)) /\
      gallery (app (App.play subs m)) = rev news ++ gallery (app m).
Proof.
  induction subs as [| [w ev] rest IH]; intros m H.
  - exists []. split; [reflexivity |]. split; [| reflexivity].
    intro k. destruct k; reflexivity.
  - destruct H as [Hs Hrest].
    destruct (dispatch_succeeds w ev m Hs) as [e He].
    destruct (IH _ Hrest) as (news & Hlen & Hk & Hall).
    exists (e :: news). split; [simpl; congruence |]. split.
    + intros [| k]; [reflexivity |].
      simpl. rewrite Hk, He, <- app_assoc. reflexivity.
    + simpl. rewrite Hall, He, <- app_assoc. reflexivity.
Qed.

Lemma successful_submissions_prepend_witness :
  let w :=
    steadyWorld (Fulfilled (contentResponse [imagePart (lit "QUJD")]))
      (Fulfilled (imagesResponse [lit "REVG"])) 1700000000000 in
  let uploaded := lit "data:image/png;base64,iVBORw0KGgo=" in
  let old := GeneratedImage.mk (lit "1") (lit "data:,") (lit "old") 1 mockup in
  let m :=
    mkMachine
      (mkAppState MOCKUP (Some uploaded) (lit "image/png") (lit "a red car")
         false [old] (lit "mug") WIDE) 0 [] in
  let subs := [(w, App.GenerateMockupClicked); (w, App.GenerateImageClicked)] in
  allSucceed subs m /\
  exists news,
    List.length news = 2%nat /\
    gallery (app (App.play subs m)) = rev news ++ [old].
Proof.
  intros w uploaded old m subs.
  assert (Hok : allSucceed subs m).
  { split.
    - exists uploaded, (lit "data:image/png;base64," ++ lit "QUJD").
      split; [reflexivity |]. split; reflexivity.
    - split; [| exact I]. split; [reflexivity |].
      exists (lit "data:image/jpeg;base64," ++ lit "REVG"). reflexivity. }
  split; [exact Hok |].
  destruct (successful_submissions_prepend subs m Hok)
    as (news & Hlen & _ & Hall).
  exists news. split; [exact Hlen | exact Hall].
Defined.

(** C6.  A successful generation submission adds an entry of kind
    [generation] whose prompt is the free-text prompt exactly as it stands
    in the text area. *)
Theorem generation_entry_keeps_prompt :
  forall (w : World) (m : Machine) (u : jsstring),
    truthy (trim (prompt (app m))) = true ->
    outcome w (imageCall (app m)) = Fulfilled u ->
    let m' := App.dispatch w App.GenerateImageClicked m in
    exists newImage,
      gallery (app m') = newImage :: gallery (app m) /\
      GeneratedImage.type newImage = generation /\
      GeneratedImage.prompt newImage = prompt (app m) /\
      GeneratedImage.url newImage = u.
Proof.
  intros w m u Htr Hu m'. subst m'.
  rewrite (dispatch_image w m Htr). cbv zeta. rewrite Hu.
  eexists. split; [reflexivity |]. split; [reflexivity |].
  split; reflexivity.
Qed.

Lemma generation_entry_keeps_prompt_witness :
  let w :=
    steadyWorld (Rejected (Error []))
      (Fulfilled (imagesResponse [lit "REVG"])) 1700000000000 in
  let typed := lit "  a watercolor fox " in
  let m :=
    App.mount
      (mkAppState IMAGE_GEN None (lit "image/png") typed false []
         (lit "mug") WIDE) in
  truthy (trim (prompt (app m))) = true /\
  exists newImage,
    gallery (app (App.dispatch w App.GenerateImageClicked m)) = [newImage] /\
    GeneratedImage.type newImage = generation /\
    GeneratedImage.prompt newImage = typed.
Proof.
  intros w typed m. split; [reflexivity |].
  destruct (generation_entry_keeps_prompt w m
              (lit "data:image/jpeg;base64," ++ lit "REVG") eq_refl eq_refl)
    as (newImage & Hg & Ht & Hp & _).
  exists newImage. split; [exact Hg |]. split; [exact Ht | exact Hp].
Defined.

(* ================================================================= *)
(** ** The text-to-image call *)

(** C5.  [generateImage] sends one request, for one JPEG image at the
    given aspect ratio; it returns a [data:image/jpeg;base64,] URI when the
    response holds at least one image, throws when it holds none, and
    rethrows when the endpoint rejects. *)
Theorem generateImage_contract :
  forall (w : World) (p : jsstring) (r : AspectRatio) (m : Machine),
    let req :=
      Request.mkGenerateImages (lit "imagen-4.0-generate-001") p 1%Z
        (lit "image/jpeg") r in
    let call := GeminiService.generateImage p r in
    imagesRequests (trace (exec w call m)) = req :: imagesRequests (trace m) /\
    (forall resp first rest,
        generateImages w req = Fulfilled resp ->
        Response.generatedImages resp = Some (first :: rest) ->
        result w call m =
        Fulfilled (lit "data:image/jpeg;base64,"
                     ++ Response.imageBytes (Response.image first))) /\
    (forall resp,
        generateImages w req = Fulfilled resp ->
        Response.generatedImages resp = None \/
        Response.generatedImages resp = Some [] ->
        result w call m = Rejected (Error (lit "No image generated"))) /\
    (forall e,
        generateImages w req = Rejected e ->
        result w call m = Rejected e).
Proof.
  intros w p r m req call. subst call.
  unfold exec, result, GeminiService.generateImage. simpl. fold req.
  split; [| split; [| split]].
  - destruct (generateImages w req) as [resp | e]; simpl; [| reflexivity].
    destruct (Response.generatedImages resp) as [[| first rest] |];
      reflexivity.
  - intros resp first rest H Hg. rewrite H. simpl. rewrite Hg. reflexivity.
  - intros resp H [Hn | Hn]; rewrite H; simpl; rewrite Hn; reflexivity.
  - intros e H. rewrite H. reflexivity.
Qed.

Lemma generateImage_contract_witness :
  let req :=
    Request.mkGenerateImages (lit "imagen-4.0-generate-001")
      (lit "a watercolor fox") 1%Z (lit "image/jpeg") WIDE in
  let call := GeminiService.generateImage (lit "a watercolor fox") WIDE in
  let m := App.mount App.initialState in
  let answers (i : Settled Response.GenerateImages) :=
    steadyWorld (Rejected (Error [])) i 1700000000000 in
  let down := Error (lit "quota exceeded") in
  imagesRequests
    (trace (exec (answers (Fulfilled (imagesResponse [lit "REVG"]))) call m))
    = [req] /\
  result (answers (Fulfilled (imagesResponse [lit "REVG"]))) call m =
    Fulfilled (lit "data:image/jpeg;base64,REVG") /\
  result (answers (Fulfilled (imagesResponse []))) call m =
    Rejected (Error (lit "No image generated")) /\
  result (answers (Rejected down)) call m = Rejected down.
Proof.
  intros req call m answers down.
  split; [| split; [| split]].
  - exact (proj1 (generateImage_contract
       (answers (Fulfilled (imagesResponse [lit "REVG"])))
       (lit "a watercolor fox") WIDE m)).
  - destruct (generateImage_contract
       (answers (Fulfilled (imagesResponse [lit "REVG"])))
       (lit "a watercolor fox") WIDE m) as (_ & Hsome & _ & _).
    exact (Hsome (imagesResponse [lit "REVG"])
             (Response.mkGeneratedImage (Response.mkImage (lit "REVG")))
             [] eq_refl eq_refl).
  - destruct (generateImage_contract
       (answers (Fulfilled (imagesResponse [])))
       (lit "a watercolor fox") WIDE m) as (_ & _ & Hnone & _).
    exact (Hnone (imagesResponse []) eq_refl (or_intror eq_refl)).
  - destruct (generateImage_contract (answers (Rejected down))
       (lit "a watercolor fox") WIDE m) as (_ & _ & _ & Hrej).
    exact (Hrej down eq_refl).
Defined.

(* ================================================================= *)
(** ** The controls of the side panel *)

(** C7.  Clicking a mode button sets the mode and empties the free-text
    prompt; the uploaded image, its MIME type, the gallery and every other
    cell stay as they were. *)
Theorem mode_switch_clears_prompt_only :
  forall (w : World) (m : Machine) (target : AppMode),
    let m' := App.dispatch w (App.ModeClicked target) m in
    mode (app m') = target /\
    prompt (app m') = [] /\
    uploadedImage (app m') = uploadedImage (app m) /\
    uploadedMimeType (app m') = uploadedMimeType (app m) /\
    gallery (app m') = gallery (app m) /\
    isGenerating (app m') = isGenerating (app m) /\
    selectedPreset (app m') = selectedPreset (app m) /\
    selectedAspectRatio (app m') = selectedAspectRatio (app m).
Proof.
  intros w m target m'. subst m'.
  unfold App.dispatch, exec, App.handler, App.onClickMode. simpl.
  repeat (split; [reflexivity |]). reflexivity.
Qed.

(** C9.  Clicking a preset button selects that preset and empties the
    free-text prompt; the uploaded image, its MIME type, the gallery, the
    mode, the aspect ratio and the busy flag stay as they were. *)
Theorem preset_click_clears_prompt :
  forall (w : World) (m : Machine) (preset : MockupPreset.t),
    let m' := App.dispatch w (App.PresetClicked preset) m in
    selectedPreset (app m') = MockupPreset.id preset /\
    prompt (app m') = [] /\
    uploadedImage (app m') = uploadedImage (app m) /\
    uploadedMimeType (app m') = uploadedMimeType (app m) /\
    gallery (app m') = gallery (app m) /\
    mode (app m') = mode (app m) /\
    selectedAspectRatio (app m') = selectedAspectRatio (app m) /\
    isGenerating (app m') = isGenerating (app m).
Proof.
  intros w m preset m'. subst m'.
  unfold App.dispatch, exec, App.handler, App.onClickPreset. simpl.
  repeat (split; [reflexivity |]). reflexivity.
Qed.

(* ================================================================= *)
(** ** Downloads *)

(** C8.  Downloading a gallery entry clicks one anchor whose target is the
    entry's data URI and whose file name is [mockup-ai-<id>.png]; the name
    ends in [.png] also for a generation entry whose data URI is a JPEG
    one.  The state cells are not touched. *)
Theorem download_name_is_png :
  forall (w : World) (m : Machine),
    (forall item : GeneratedImage.t,
        let m' := App.dispatch w (App.DownloadClicked item) m in
        let link :=
          mkAnchor (GeneratedImage.url item)
            (lit "mockup-ai-" ++ GeneratedImage.id item ++ lit ".png") in
        trace m' = RemoveChild link :: Click link :: AppendChild link
                     :: trace m /\
        app m' = app m)
    /\
    (forall (id bytes promptText : jsstring) (createdAt : Z),
        let item :=
          GeneratedImage.mk id (lit "data:image/jpeg;base64," ++ bytes)
            promptText createdAt generation in
        let m' := App.dispatch w (App.DownloadClicked item) m in
        exists link,
          trace m' = RemoveChild link :: Click link :: AppendChild link
                       :: trace m /\
          href link = lit "data:image/jpeg;base64," ++ bytes /\
          download link = lit "mockup-ai-" ++ id ++ lit ".png").
Proof.
  intros w m. split.
  - intros item m' link. split; reflexivity.
  - intros id bytes promptText createdAt item m'.
    eexists. split; [reflexivity |]. split; reflexivity.
Qed.

(* ================================================================= *)
(** ** The fallback prompt *)

(** C10.  A mockup submission with an empty free-text prompt and a
    selected preset id that is not in the catalog goes ahead with the
    prompt "Place this design on a product.": that text is sent to the
    image-edit call and, when the call returns, stored in the new entry. *)
Theorem unknown_preset_uses_fallback_prompt :
  forall (w : World) (m : Machine) (uploaded : jsstring),
    uploadedImage (app m) = Some uploaded ->
    truthy uploaded = true ->
    prompt (app m) = [] ->
    (forall preset, In preset App.MOCKUP_PRESETS ->
                    MockupPreset.id preset <> selectedPreset (app m)) ->
    let st := app m in
    let m' := App.dispatch w App.GenerateMockupClicked m in
    App.finalPrompt st = lit "Place this design on a product." /\
    contentRequests (trace m') =
      mockupRequest (base64Of uploaded) (uploadedMimeType st)
        (lit "Place this design on a product.")
        :: contentRequests (trace m) /\
    (forall u, outcome w (mockupCall st uploaded) = Fulfilled u ->
       exists newImage,
         gallery (app m') = newImage :: gallery st /\
         GeneratedImage.prompt newImage =
           lit "Place this design on a product.").
Proof.
  intros w m uploaded Hup Htr Hempty Hno st m'.
  assert (Hfp : App.finalPrompt st = fallbackPrompt).
  { apply finalPrompt_fallback; [| exact Hno].
    unfold st. rewrite Hempty. reflexivity. }
  subst m'. rewrite (dispatch_mockup w m uploaded Hup Htr). fold st.
  cbv zeta. rewrite Hfp. split; [reflexivity |]. split.
  - destruct (outcome w (mockupCall st uploaded)); reflexivity.
  - intros u Hu. rewrite Hu. eexists. split; reflexivity.
Qed.

Lemma unknown_preset_uses_fallback_prompt_witness :
  let w :=
    steadyWorld (Fulfilled (contentResponse [imagePart (lit "QUJD")]))
      (Rejected (Error [])) 1700000000000 in
  let uploaded := lit "data:image/png;base64,iVBORw0KGgo=" in
  let m :=
    App.mount
      (mkAppState MOCKUP (Some uploaded) (lit "image/png") [] false []
         (lit "poster") SQUARE) in
  let m' := App.dispatch w App.GenerateMockupClicked m in
  (uploadedImage (app m) = Some uploaded /\ truthy uploaded = true /\
   prompt (app m) = []) /\
  contentRequests (trace m') =
    [mockupRequest (Some (lit "iVBORw0KGgo=")) (lit "image/png")
       (lit "Place this design on a product.")] /\
  exists newImage,
    gallery (app m') = [newImage] /\
    GeneratedImage.prompt newImage = lit "Place this design on a product.".
Proof.
  intros w uploaded m m'.
  assert (Hno : forall preset, In preset App.MOCKUP_PRESETS ->
                  MockupPreset.id preset <> selectedPreset (app m)).
  { intros preset Hin. unfold App.MOCKUP_PRESETS in Hin. simpl in Hin.
    repeat (destruct Hin as [<- | Hin]; [vm_compute; discriminate |]).
    contradiction. }
  destruct (unknown_preset_uses_fallback_prompt w m uploaded
              eq_refl eq_refl eq_refl Hno) as (_ & Hsent & Hstored).
  split; [split; [| split]; reflexivity |]. split.
  - exact Hsent.
  - exact (Hstored (lit "data:image/png;base64," ++ lit "QUJD") eq_refl).
Defined.


(* ================================================================= *)
(** ** Trimming and splitting *)

Lemma trimStart_prefix (s : jsstring) :
  exists pre, s = pre ++ trimStart s /\ blank pre = true.
Proof.
  induction s as [| c r IH]; simpl.
  - exists []. split; reflexivity.
  - destruct (isTrimmable c) eqn:E.
    + destruct IH as (pre & Hs & Hb). exists (c :: pre). split.
      * simpl. f_equal. exact Hs.
      * simpl. rewrite E. exact Hb.
    + exists []. split; reflexivity.
Qed.

Lemma trimStart_clean (s : jsstring) : startsClean (trimStart s) = true.
Proof.
  induction s as [| c r IH]; simpl.
  - reflexivity.
  - destruct (isTrimmable c) eqn:E; [exact IH |]. simpl. rewrite E.
    reflexivity.
Qed.

Lemma trimStart_fixed (s : jsstring) :
  startsClean s = true -> trimStart s = s.
Proof.
  destruct s as [| c r]; simpl; [reflexivity |].
  destruct (isTrimmable c); [discriminate | reflexivity].
Qed.

Lemma trimStart_nil_iff (s : jsstring) :
  trimStart s = [] <-> blank s = true.
Proof.
  induction s as [| c r IH]; simpl.
  - split; reflexivity.
  - destruct (isTrimmable c); simpl; [exact IH |].
    split; discriminate.
Qed.

Lemma blank_rev (s : jsstring) : blank (rev s) = blank s.
Proof.
  unfold blank. induction s as [| c r IH]; simpl; [reflexivity |].
  rewrite forallb_app, IH. simpl. rewrite andb_true_r. apply andb_comm.
Qed.

Lemma clean_blank_nil (s : jsstring) :
  startsClean s = true -> blank s = true -> s = [].
Proof.
  destruct s as [| c r]; simpl; [reflexivity |].
  destruct (isTrimmable c); discriminate.
Qed.

Lemma rev_nil_inv {X : Type} (l : list X) : rev l = [] -> l = [].
Proof.
  intro H. rewrite <- (rev_involutive l), H. reflexivity.
Qed.

(** [trim] leaves nothing exactly on the strings made of white space. *)
Lemma trim_nil_iff (s : jsstring) : trim s = [] <-> blank s = true.
Proof.
  unfold trim, trimEnd. split.
  - intro H. apply rev_nil_inv in H. apply trimStart_nil_iff in H.
    rewrite blank_rev in H.
    apply trimStart_nil_iff, clean_blank_nil; [apply trimStart_clean | exact H].
  - intro H. apply trimStart_nil_iff in H. rewrite H. reflexivity.
Qed.

Lemma startsClean_app (a b : jsstring) :
  a <> [] -> startsClean (a ++ b) = startsClean a.
Proof.
  destruct a; [congruence | reflexivity].
Qed.

(** What [trim] returns neither begins nor ends with a trimmable unit. *)
Lemma trim_clean (s : jsstring) :
  startsClean (trim s) = true /\ startsClean (rev (trim s)) = true.
Proof.
  unfold trim, trimEnd.
  set (t := trimStart s). set (u := trimStart (rev t)). split.
  - destruct (trimStart_prefix (rev t)) as (pre & Hs & _). fold u in Hs.
    assert (Ht : t = rev u ++ rev pre).
    { rewrite <- (rev_involutive t), Hs, rev_app_distr. reflexivity. }
    destruct (rev u) as [| c r] eqn:E; [reflexivity |].
    rewrite <- (startsClean_app (c :: r) (rev pre)) by discriminate.
    rewrite <- Ht. apply trimStart_clean.
  - rewrite rev_involutive. apply trimStart_clean.
Qed.

Lemma trim_fixed (s : jsstring) :
  startsClean s = true -> startsClean (rev s) = true -> trim s = s.
Proof.
  intros Hs He. unfold trim, trimEnd.
  rewrite (trimStart_fixed s Hs), (trimStart_fixed (rev s) He).
  apply rev_involutive.
Qed.

Lemma trim_idempotent (s : jsstring) : trim (trim s) = trim s.
Proof.
  destruct (trim_clean s) as [Hs He]. apply trim_fixed; assumption.
Qed.

Lemma split_nil (sep : N) : split sep [] = [[]].
Proof. reflexivity. Qed.

Lemma split_cons (sep c : N) (r : jsstring) :
  split sep (c :: r) =
  if c =? sep then [] :: split sep r
  else match split sep r with
       | h :: t => (c :: h) :: t
       | [] => [[c]]
       end.
Proof. reflexivity. Qed.

Lemma split_commaFree (s : jsstring) :
  commaFree s = true -> split comma s = [s].
Proof.
  induction s as [| c r IH]; simpl; intro H.
  - apply split_nil.
  - apply andb_true_iff in H. destruct H as [Hc Hr].
    rewrite split_cons. apply negb_true_iff in Hc. rewrite Hc, (IH Hr).
    reflexivity.
Qed.

Lemma split_app_comma (a b : jsstring) :
  commaFree a = true ->
  split comma (a ++ comma :: b) = a :: split comma b.
Proof.
  induction a as [| c r IH]; simpl; intro H.
  - rewrite split_cons, N.eqb_refl. reflexivity.
  - apply andb_true_iff in H. destruct H as [Hc Hr].
    rewrite split_cons. apply negb_true_iff in Hc. rewrite Hc, (IH Hr).
    reflexivity.
Qed.

(* ================================================================= *)
(** ** What a mockup submission uploads *)

Lemma mockup_sends (w : World) (m : Machine) (uploaded : jsstring) :
  uploadedImage (app m) = Some uploaded ->
  truthy uploaded = true ->
  contentRequests (trace (App.dispatch w App.GenerateMockupClicked m)) =
  mockupRequest (base64Of uploaded) (uploadedMimeType (app m))
    (App.finalPrompt (app m)) :: contentRequests (trace m).
Proof.
  intros Hup Htr. rewrite (dispatch_mockup w m uploaded Hup Htr). cbv zeta.
  destruct (outcome w (mockupCall (app m) uploaded)); reflexivity.
Qed.

Lemma base64Of_payload (header payload : jsstring) :
  commaFree header = true ->
  commaFree payload = true ->
  base64Of (header ++ comma :: payload) = Some payload.
Proof.
  intros Hh Hp. unfold base64Of.
  rewrite (split_app_comma header payload Hh), (split_commaFree payload Hp).
  reflexivity.
Qed.

(** X1.  When the uploaded data URI is a comma-free header, a comma and a
    comma-free payload (base64 has no comma), a mockup submission sends
    exactly the payload, header stripped, together with the MIME type of
    the upload. *)
Theorem mockup_sends_payload_of_data_uri :
  forall (w : World) (m : Machine) (header payload : jsstring),
    uploadedImage (app m) = Some (header ++ comma :: payload) ->
    commaFree header = true ->
    commaFree payload = true ->
    contentRequests (trace (App.dispatch w App.GenerateMockupClicked m)) =
    mockupRequest (Some payload) (uploadedMimeType (app m))
      (App.finalPrompt (app m)) :: contentRequests (trace m).
Proof.
  intros w m header payload Hup Hh Hp.
  rewrite (mockup_sends w m _ Hup).
  - rewrite (base64Of_payload header payload Hh Hp). reflexivity.
  - destruct header; reflexivity.
Qed.

Lemma mockup_sends_payload_of_data_uri_witness :
  let w :=
    steadyWorld (Fulfilled (contentResponse [imagePart (lit "QUJD")]))
      (Rejected (Error [])) 1700000000000 in
  let header := lit "data:image/webp;base64" in
  let payload := lit "UklGRg==" in
  let m :=
    App.mount
      (mkAppState MOCKUP (Some (header ++ comma :: payload))
         (lit "image/webp") [] false [] (lit "tote") SQUARE) in
  (commaFree header = true /\ commaFree payload = true) /\
  contentRequests (trace (App.dispatch w App.GenerateMockupClicked m)) =
  [mockupRequest (Some payload) (lit "image/webp")
     (lit "A canvas tote bag hanging on a coat rack with this logo printed on the side. Natural lighting.")].
Proof.
  intros w header payload m. split; [split; reflexivity |].
  exact (mockup_sends_payload_of_data_uri w m header payload
           eq_refl eq_refl eq_refl).
Defined.

(** X2.  An uploaded string without any comma is not rejected: the
    submission still calls the image-edit endpoint, with [undefined] as
    the inline data. *)
Theorem mockup_without_comma_sends_undefined :
  forall (w : World) (m : Machine) (uploaded : jsstring),
    uploadedImage (app m) = Some uploaded ->
    truthy uploaded = true ->
    commaFree uploaded = true ->
    contentRequests (trace (App.dispatch w App.GenerateMockupClicked m)) =
    mockupRequest None (uploadedMimeType (app m)) (App.finalPrompt (app m))
      :: contentRequests (trace m).
Proof.
  intros w m uploaded Hup Htr Hc.
  rewrite (mockup_sends w m uploaded Hup Htr).
  unfold base64Of. rewrite (split_commaFree uploaded Hc). reflexivity.
Qed.

Lemma mockup_without_comma_sends_undefined_witness :
  let w :=
    steadyWorld (Rejected (Error (lit "bad request")))
      (Rejected (Error [])) 1700000000000 in
  let uploaded := lit "iVBORw0KGgo=" in
  let m :=
    App.mount
      (mkAppState MOCKUP (Some uploaded) (lit "image/png")
         (lit "on a red car") false [] (lit "mug") SQUARE) in
  (truthy uploaded = true /\ commaFree uploaded = true) /\
  contentRequests (trace (App.dispatch w App.GenerateMockupClicked m)) =
  [mockupRequest None (lit "image/png") (lit "on a red car")].
Proof.
  intros w uploaded m. split; [split; reflexivity |].
  exact (mockup_without_comma_sends_undefined w m uploaded
           eq_refl eq_refl eq_refl).
Defined.

(* ================================================================= *)
(** ** The submit buttons and the handlers' guards *)

(** X3.  On an idle page the guards of the two submit handlers agree with
    the [disabled] attribute of their buttons: whenever the button is
    disabled, running the handler all the same makes no call and changes
    nothing. *)
Theorem disabled_submit_does_nothing :
  forall (w : World) (m : Machine),
    isGenerating (app m) = false ->
    (App.mockupButtonDisabled (app m) = true ->
     App.dispatch w App.GenerateMockupClicked m = m) /\
    (App.imageButtonDisabled (app m) = true ->
     App.dispatch w App.GenerateImageClicked m = m).
Proof.
  intros w m Hidle. unfold App.mockupButtonDisabled, App.imageButtonDisabled.
  rewrite Hidle, !orb_false_r. split; intro H; apply negb_true_iff in H.
  - apply dispatch_mockup_blocked.
    destruct (uploadedImage (app m)); [exact H | exact I].
  - apply dispatch_image_blocked. exact H.
Qed.

Lemma disabled_submit_does_nothing_witness :
  let w :=
    steadyWorld (Fulfilled (contentResponse [imagePart (lit "QUJD")]))
      (Fulfilled (imagesResponse [lit "REVG"])) 1700000000000 in
  let m :=
    App.mount
      (mkAppState MOCKUP None (lit "image/png") [0x20; 0x0A; 0xA0] false []
         (lit "mug") SQUARE) in
  (isGenerating (app m) = false /\
   App.mockupButtonDisabled (app m) = true /\
   App.imageButtonDisabled (app m) = true) /\
  App.dispatch w App.GenerateMockupClicked m = m /\
  App.dispatch w App.GenerateImageClicked m = m.
Proof.
  intros w m. split; [split; [| split]; reflexivity |].
  destruct (disabled_submit_does_nothing w m eq_refl) as [Hmock Himg].
  split; [exact (Hmock eq_refl) | exact (Himg eq_refl)].
Defined.

(** X4.  Generate Image calls the text-to-image endpoint exactly when the
    prompt holds something other than white space and line terminators;
    the request then carries the prompt as typed, untrimmed, and the
    selected aspect ratio. *)
Theorem image_request_iff_not_blank :
  forall (w : World) (m : Machine),
    imagesRequests (trace (App.dispatch w App.GenerateImageClicked m)) =
    if blank (prompt (app m)) then imagesRequests (trace m)
    else imageRequest (prompt (app m)) (selectedAspectRatio (app m))
           :: imagesRequests (trace m).
Proof.
  intros w m. destruct (blank (prompt (app m))) eqn:Hb.
  - apply trim_nil_iff in Hb. rewrite dispatch_image_blocked; [reflexivity |].
    rewrite Hb. reflexivity.
  - assert (Htr : truthy (trim (prompt (app m))) = true).
    { apply truthy_true_iff. intro H. apply trim_nil_iff in H. congruence. }
    rewrite (dispatch_image w m Htr). cbv zeta.
    destruct (outcome w (imageCall (app m))); reflexivity.
Qed.

(** X5.  A click on an enabled submit button has exactly two possible
    outcomes, and both leave the page idle: one new entry of the button's
    kind in front of the gallery and no alert, or the gallery as it was and
    one alert with the fixed message of that button. *)
Theorem enabled_submit_outcomes :
  forall (w : World) (m : Machine),
    (App.mockupButtonDisabled (app m) = false ->
     let m' := App.dispatch w App.GenerateMockupClicked m in
     isGenerating (app m') = false /\
     ((exists newImage,
          gallery (app m') = newImage :: gallery (app m) /\
          GeneratedImage.type newImage = mockup /\
          alerts (trace m') = alerts (trace m))
      \/
      (gallery (app m') = gallery (app m) /\
       alerts (trace m') =
         lit "Failed to generate mockup. Please try again."
           :: alerts (trace m))))
    /\
    (App.imageButtonDisabled (app m) = false ->
     let m' := App.dispatch w App.GenerateImageClicked m in
     isGenerating (app m') = false /\
     ((exists newImage,
          gallery (app m') = newImage :: gallery (app m) /\
          GeneratedImage.type newImage = generation /\
          alerts (trace m') = alerts (trace m))
      \/
      (gallery (app m') = gallery (app m) /\
       alerts (trace m') =
         lit "Failed to generate image. Please try again."
           :: alerts (trace m)))).
Proof.
  intros w m. split.
  - intros H m'. subst m'. unfold App.mockupButtonDisabled in H.
    apply orb_false_iff in H. destruct H as [H _].
    apply negb_false_iff in H.
    destruct (uploadedImage (app m)) as [uploaded |] eqn:Hup;
      [| discriminate].
    rewrite (dispatch_mockup w m uploaded Hup H). cbv zeta.
    destruct (outcome w (mockupCall (app m) uploaded)) as [u | e].
    + split; [reflexivity |]. left. eexists.
      split; [reflexivity |]. split; reflexivity.
    + split; [reflexivity |]. right. split; reflexivity.
  - intros H m'. subst m'. unfold App.imageButtonDisabled in H.
    apply orb_false_iff in H. destruct H as [H _].
    apply negb_false_iff in H.
    rewrite (dispatch_image w m H). cbv zeta.
    destruct (outcome w (imageCall (app m))) as [u | e].
    + split; [reflexivity |]. left. eexists.
      split; [reflexivity |]. split; reflexivity.
    + split; [reflexivity |]. right. split; reflexivity.
Qed.

Lemma enabled_submit_outcomes_witness :
  let w :=
    steadyWorld (Rejected (Error (lit "quota exceeded")))
      (Fulfilled (imagesResponse [lit "REVG"])) 1700000000000 in
  let m :=
    App.mount
      (mkAppState MOCKUP (Some (lit "data:image/png;base64,iVBORw0KGgo="))
         (lit "image/png") (lit "a red car") false [] (lit "mug") WIDE) in
  (App.mockupButtonDisabled (app m) = false /\
   App.imageButtonDisabled (app m) = false) /\
  isGenerating (app (App.dispatch w App.GenerateMockupClicked m)) = false /\
  isGenerating (app (App.dispatch w App.GenerateImageClicked m)) = false.
Proof.
  intros w m. split; [split; reflexivity |].
  destruct (enabled_submit_outcomes w m) as [Hmock Himg].
  split.
  - exact (proj1 (Hmock eq_refl)).
  - exact (proj1 (Himg eq_refl)).
Defined.

(* ================================================================= *)
(** ** From the endpoint's answer to the gallery entry *)

(** X6.  When the image-edit endpoint answers with a first candidate whose
    first part carries inline data, a mockup submission puts in front of
    the gallery the entry made of: the first clock reading in decimal as
    id, that data behind the [data:image/png;base64,] prefix as url, the
    resolved prompt, the second clock reading as creation time, and kind
    [mockup].  Further candidates and parts play no role. *)
Theorem mockup_entry_from_response :
  forall (w : World) (m : Machine) (uploaded : jsstring)
         (resp : Response.GenerateContent)
         (c : Response.Candidate) (cs : list Response.Candidate)
         (ct : Response.Content)
         (p : Response.Part) (ps : list Response.Part)
         (blob : Response.Blob),
    uploadedImage (app m) = Some uploaded ->
    truthy uploaded = true ->
    generateContent w
      (mockupRequest (base64Of uploaded) (uploadedMimeType (app m))
         (App.finalPrompt (app m))) = Fulfilled resp ->
    Response.candidates resp = Some (c :: cs) ->
    Response.content c = Some ct ->
    Response.parts ct = Some (p :: ps) ->
    Response.inlineData p = Some blob ->
    gallery (app (App.dispatch w App.GenerateMockupClicked m)) =
    GeneratedImage.mk
      (toString (clock w (ticks m)))
      (lit "data:image/png;base64," ++ Response.data blob)
      (App.finalPrompt (app m))
      (clock w (S (ticks m)))
      mockup
    :: gallery (app m).
Proof.
  intros w m uploaded resp c cs ct p ps blob Hup Htr Hw Hc Hct Hps Hp.
  rewrite (dispatch_mockup w m uploaded Hup Htr). cbv zeta.
  unfold mockupCall.
  rewrite (generateMockup_first_part w _ _ _ resp (p :: ps) blob Hw).
  - reflexivity.
  - unfold GeminiService.firstCandidateParts. rewrite Hc. simpl.
    rewrite Hct. exact Hps.
  - unfold GeminiService.firstPartInlineData. simpl. exact Hp.
Qed.

Lemma mockup_entry_from_response_witness :
  let resp :=
    Response.mkGenerateContent
      (Some [Response.mkCandidate
               (Some (Response.mkContent
                        (Some [imagePart (lit "QUJD"); textPart (lit "Done.");
                               imagePart (lit "WFla")])));
             Response.mkCandidate None]) in
  let w :=
    steadyWorld (Fulfilled resp) (Rejected (Error [])) 1700000000000 in
  let m :=
    App.mount
      (mkAppState MOCKUP (Some (lit "data:image/jpeg;base64,/9j/4AAQ"))
         (lit "image/jpeg") (lit "on a red car") false [] (lit "mug")
         SQUARE) in
  gallery (app (App.dispatch w App.GenerateMockupClicked m)) =
  [GeneratedImage.mk (lit "1700000000000")
     (lit "data:image/png;base64,QUJD") (lit "on a red car")
     1700000000001 mockup].
Proof.
  intros resp w m.
  exact (mockup_entry_from_response w m
           (lit "data:image/jpeg;base64,/9j/4AAQ") resp
           (Response.mkCandidate
              (Some (Response.mkContent
                       (Some [imagePart (lit "QUJD"); textPart (lit "Done.");
                              imagePart (lit "WFla")]))))
           [Response.mkCandidate None]
           (Response.mkContent
              (Some [imagePart (lit "QUJD"); textPart (lit "Done.");
                     imagePart (lit "WFla")]))
           (imagePart (lit "QUJD"))
           [textPart (lit "Done."); imagePart (lit "WFla")]
           (Response.mkBlob (lit "QUJD"))
           eq_refl eq_refl eq_refl eq_refl eq_refl eq_refl eq_refl).
Defined.

Lemma generateImage_first_image (w : World) (p : jsstring) (r : AspectRatio)
    (resp : Response.GenerateImages) (first : Response.GeneratedImage)
    (rest : list Response.GeneratedImage) :
  generateImages w (imageRequest p r) = Fulfilled resp ->
  Response.generatedImages resp = Some (first :: rest) ->
  outcome w (GeminiService.generateImage p r) =
  Fulfilled (lit "data:image/jpeg;base64,"
               ++ Response.imageBytes (Response.image first)).
Proof.
  intros Hw Hg.
  unfold outcome, result, GeminiService.generateImage. simpl.
  unfold imageRequest in Hw. rewrite Hw. simpl. rewrite Hg. reflexivity.
Qed.

(** X7.  When the text-to-image endpoint answers with at least one image,
    a generation submission puts in front of the gallery the entry made
    of: the first clock reading in decimal as id, the bytes of the first
    image behind the [data:image/jpeg;base64,] prefix as url, the prompt
    as typed, the second clock reading as creation time, and kind
    [generation].  Any further image of the answer is dropped. *)
Theorem generation_entry_from_response :
  forall (w : World) (m : Machine) (resp : Response.GenerateImages)
         (first : Response.GeneratedImage)
         (rest : list Response.GeneratedImage),
    truthy (trim (prompt (app m))) = true ->
    generateImages w
      (imageRequest (prompt (app m)) (selectedAspectRatio (app m))) =
      Fulfilled resp ->
    Response.generatedImages resp = Some (first :: rest) ->
    gallery (app (App.dispatch w App.GenerateImageClicked m)) =
    GeneratedImage.mk
      (toString (clock w (ticks m)))
      (lit "data:image/jpeg;base64,"
         ++ Response.imageBytes (Response.image first))
      (prompt (app m))
      (clock w (S (ticks m)))
      generation
    :: gallery (app m).
Proof.
  intros w m resp first rest Htr Hw Hg.
  rewrite (dispatch_image w m Htr). cbv zeta. unfold imageCall.
  rewrite (generateImage_first_image w _ _ resp first rest Hw Hg).
  reflexivity.
Qed.

Lemma generation_entry_from_response_witness :
  let w :=
    steadyWorld (Rejected (Error []))
      (Fulfilled (imagesResponse [lit "REVG"; lit "R0hJ"])) 1700000000000 in
  let m :=
    App.mount
      (mkAppState IMAGE_GEN None (lit "image/png") (lit " a fox ") false []
         (lit "mug") TALL) in
  gallery (app (App.dispatch w App.GenerateImageClicked m)) =
  [GeneratedImage.mk (lit "1700000000000")
     (lit "data:image/jpeg;base64,REVG") (lit " a fox ")
     1700000000001 generation].
Proof.
  intros w m.
  exact (generation_entry_from_response w m
           (imagesResponse [lit "REVG"; lit "R0hJ"])
           (Response.mkGeneratedImage (Response.mkImage (lit "REVG")))
           [Response.mkGeneratedImage (Response.mkImage (lit "R0hJ"))]
           eq_refl eq_refl eq_refl).
Defined.

(* ================================================================= *)
(** ** Entry ids *)

Lemma lit_inj (a b : string) : lit a = lit b -> a = b.
Proof.
  unfold lit. intro H.
  rewrite <- (string_of_list_ascii_of_string a),
          <- (string_of_list_ascii_of_string b).
  f_equal.
  revert H. generalize (list_ascii_of_string a) (list_ascii_of_string b).
  induction l as [| x l IH]; intros [| y l'] H; simpl in H;
    try discriminate; [reflexivity |].
  injection H as Hxy Hl. f_equal.
  - rewrite <- (ascii_N_embedding x), <- (ascii_N_embedding y), Hxy.
    reflexivity.
  - apply IH, Hl.
Qed.

Lemma to_int_proper (z : Z) :
  Z.to_int z <> Decimal.Pos Decimal.Nil /\
  Z.to_int z <> Decimal.Neg Decimal.Nil.
Proof.
  destruct z as [| p | p]; simpl; split; try discriminate;
    intro H; injection H as H; revert H; apply DecimalPos.Unsigned.to_uint_nonnil.
Qed.

(** Printing a number in decimal loses nothing. *)
Lemma toString_inj (a b : Z) : toString a = toString b -> a = b.
Proof.
  unfold toString. intro H. apply lit_inj in H.
  apply DecimalZ.to_int_inj.
  destruct (to_int_proper a) as [Ha1 Ha2].
  destruct (to_int_proper b) as [Hb1 Hb2].
  pose proof (NilZero.isi _ Ha1 Ha2) as Ea.
  pose proof (NilZero.isi _ Hb1 Hb2) as Eb.
  rewrite H in Ea. congruence.
Qed.

Lemma dispatch_succeeds_entry (w : World) (ev : App.UiEvent) (m : Machine) :
  succeeds w ev (app m) ->
  exists u p k,
    gallery (app (App.dispatch w ev m)) =
      newEntry w (ticks m) u p k :: gallery (app m) /\
    ticks (App.dispatch w ev m) = S (S (ticks m)).
Proof.
  destruct ev; simpl; try contradiction.
  - intros (uploaded & u & Hup & Htr & Hu).
    rewrite (dispatch_mockup w m uploaded Hup Htr). cbv zeta. rewrite Hu.
    do 3 eexists. split; reflexivity.
  - intros (Htr & u & Hu).
    rewrite (dispatch_image w m Htr). cbv zeta. rewrite Hu.
    do 3 eexists. split; reflexivity.
Qed.

(** X8.  The ids of the entries of two successful submissions in a row
    (the React keys of their cards) coincide exactly when the clock shows
    the same millisecond at the first reading of each submission. *)
Theorem consecutive_ids_collide_iff_same_millisecond :
  forall (w1 w2 : World) (ev1 ev2 : App.UiEvent) (m : Machine),
    succeeds w1 ev1 (app m) ->
    succeeds w2 ev2 (app (App.dispatch w1 ev1 m)) ->
    exists e1 e2,
      gallery (app (App.play [(w1, ev1); (w2, ev2)] m)) =
        e2 :: e1 :: gallery (app m) /\
      (GeneratedImage.id e1 = GeneratedImage.id e2 <->
       clock w1 (ticks m) = clock w2 (S (S (ticks m)))).
Proof.
  intros w1 w2 ev1 ev2 m H1 H2.
  destruct (dispatch_succeeds_entry w1 ev1 m H1)
    as (u1 & p1 & k1 & Hg1 & Ht1).
  destruct (dispatch_succeeds_entry w2 ev2 _ H2)
    as (u2 & p2 & k2 & Hg2 & _).
  exists (newEntry w1 (ticks m) u1 p1 k1).
  exists (newEntry w2 (S (S (ticks m))) u2 p2 k2).
  split.
  - simpl. rewrite Hg2, Hg1, Ht1. reflexivity.
  - simpl. split.
    + apply toString_inj.
    + intros ->. reflexivity.
Qed.

Lemma consecutive_ids_collide_iff_same_millisecond_witness :
  let w :=
    mkWorld (fun _ => Rejected (Error []))
      (fun _ => Fulfilled (imagesResponse [lit "REVG"]))
      (fun _ => 1700000000000%Z) in
  let m :=
    App.mount
      (mkAppState IMAGE_GEN None (lit "image/png") (lit "a fox") false []
         (lit "mug") TALL) in
  exists e1 e2,
    gallery (app (App.play [(w, App.GenerateImageClicked);
                            (w, App.GenerateImageClicked)] m)) = [e2; e1] /\
    GeneratedImage.id e1 = GeneratedImage.id e2.
Proof.
  intros w m.
  assert (H1 : succeeds w App.GenerateImageClicked (app m)).
  { split; [reflexivity |].
    exists (lit "data:image/jpeg;base64," ++ lit "REVG"). reflexivity. }
  assert (H2 : succeeds w App.GenerateImageClicked
                 (app (App.dispatch w App.GenerateImageClicked m))).
  { split; [reflexivity |].
    exists (lit "data:image/jpeg;base64," ++ lit "REVG"). reflexivity. }
  destruct (consecutive_ids_collide_iff_same_millisecond
              w w App.GenerateImageClicked App.GenerateImageClicked m H1 H2)
    as (e1 & e2 & Hg & Hid).
  exists e1, e2. split; [exact Hg |]. apply Hid. reflexivity.
Defined.

(* ================================================================= *)
(** ** The resolved prompt is well formed *)

Lemma catalog_templates_clean (preset : MockupPreset.t) :
  In preset App.MOCKUP_PRESETS ->
  MockupPreset.promptTemplate preset <> [] /\
  trim (MockupPreset.promptTemplate preset) =
  MockupPreset.promptTemplate preset.
Proof.
  intro Hin. unfold App.MOCKUP_PRESETS in Hin. simpl in Hin.
  repeat (destruct Hin as [<- | Hin];
          [split; [vm_compute; discriminate | vm_compute; reflexivity] |]).
  contradiction.
Qed.

Lemma finalPrompt_clean (st : AppState) :
  App.finalPrompt st <> [] /\ trim (App.finalPrompt st) = App.finalPrompt st.
Proof.
  unfold App.finalPrompt.
  destruct (truthy (trim (prompt st))) eqn:Htr; cbn [negb].
  - split; [apply truthy_true_iff, Htr | apply trim_idempotent].
  - destruct (find _ App.MOCKUP_PRESETS) as [preset |] eqn:F.
    + apply find_some in F. apply catalog_templates_clean, F.
    + split; [vm_compute; discriminate | vm_compute; reflexivity].
Qed.

(** X9.  Whatever the state, the prompt a mockup submission resolves is
    never empty and neither begins nor ends with white space, so the
    image-edit call always gets a real instruction; and typing a resolved
    prompt back into the text area resolves to that same prompt. *)
Theorem resolved_prompt_well_formed :
  forall st : AppState,
    App.finalPrompt st <> [] /\
    startsClean (App.finalPrompt st) = true /\
    startsClean (rev (App.finalPrompt st)) = true /\
    App.finalPrompt (set_prompt (App.finalPrompt st) st) = App.finalPrompt st.
Proof.
  intro st. destruct (finalPrompt_clean st) as [Hne Hfix].
  split; [exact Hne |].
  destruct (trim_clean (App.finalPrompt st)) as [Hs He].
  rewrite Hfix in Hs, He. split; [exact Hs |]. split; [exact He |].
  apply truthy_true_iff in Hne.
  set (fp := App.finalPrompt st) in *.
  unfold App.finalPrompt. simpl prompt. rewrite Hfix, Hne. reflexivity.
Qed.

(* ================================================================= *)
(** ** What the rendered page can reach *)

Lemma preset_ids_unique (p q : MockupPreset.t) :
  In p App.MOCKUP_PRESETS -> In q App.MOCKUP_PRESETS ->
  MockupPreset.id p = MockupPreset.id q -> p = q.
Proof.
  intros Hp Hq Hid.
  pose proof (find_preset_by_id p Hp) as Fp.
  pose proof (find_preset_by_id q Hq) as Fq.
  rewrite Hid in Fp. congruence.
Qed.

Lemma dispatch_selectedPreset (w : World) (ev : App.UiEvent) (m : Machine) :
  selectedPreset (app (App.dispatch w ev m)) =
  match ev with
  | App.PresetClicked preset => MockupPreset.id preset
  | _ => selectedPreset (app m)
  end.
Proof.
  destruct ev as [file | | | item | preset | target | value | ratio];
    try reflexivity.
  - destruct file; reflexivity.
  - destruct (uploadedImage (app m)) as [uploaded |] eqn:Hup.
    + destruct (truthy uploaded) eqn:Htr.
      * rewrite (dispatch_mockup w m uploaded Hup Htr). cbv zeta.
        destruct (outcome w (mockupCall (app m) uploaded)); reflexivity.
      * rewrite dispatch_mockup_blocked by (rewrite Hup; exact Htr).
        reflexivity.
    + rewrite dispatch_mockup_blocked by (rewrite Hup; exact I).
      reflexivity.
  - destruct (truthy (trim (prompt (app m)))) eqn:Htr.
    + rewrite (dispatch_image w m Htr). cbv zeta.
      destruct (outcome w (imageCall (app m))); reflexivity.
    + rewrite (dispatch_image_blocked w m Htr). reflexivity.
Qed.

Lemma play_selectionKnown (evs : list (World * App.UiEvent)) (m : Machine) :
  Forall (fun we => rendered (snd we)) evs ->
  selectionKnown (app m) ->
  selectionKnown (app (App.play evs m)).
Proof.
  intro Hall. revert m.
  induction Hall as [| [w ev] rest Hev _ IH]; intros m Hk; simpl.
  - exact Hk.
  - apply IH. unfold selectionKnown. rewrite dispatch_selectedPreset.
    destruct ev; try exact Hk.
    exists preset. split; [exact Hev | reflexivity].
Qed.

(** X10.  In every state the rendered page can reach from its initial
    state, the selected preset id names a preset of the catalog: exactly
    that preset's button is highlighted, and a submission with a blank
    prompt sends that preset's template, so the fallback prompt is never
    used. *)
Theorem reachable_selection_is_a_catalog_preset :
  forall evs : list (World * App.UiEvent),
    Forall (fun we => rendered (snd we)) evs ->
    let st := app (App.play evs (App.mount App.initialState)) in
    exists preset,
      In preset App.MOCKUP_PRESETS /\
      MockupPreset.id preset = selectedPreset st /\
      (forall q, In q App.MOCKUP_PRESETS ->
                 (App.presetHighlighted st q = true <-> q = preset)) /\
      (blank (prompt st) = true ->
       App.finalPrompt st = MockupPreset.promptTemplate preset).
Proof.
  intros evs Hall st.
  assert (Hk : selectionKnown st).
  { apply play_selectionKnown; [exact Hall |].
    exists (MockupPreset.mk (lit "mug") (lit "Ceramic Mug") [0x2615]
              (lit "Place this logo realistically on a clean white ceramic coffee mug sitting on a wooden table. Professional product photography.")).
    split; [left; reflexivity | reflexivity]. }
  destruct Hk as (preset & Hin & Hid).
  exists preset. split; [exact Hin |]. split; [exact Hid |]. split.
  - intros q Hq. unfold App.presetHighlighted, strict_eq.
    destruct (jsstring_eq_dec (selectedPreset st) (MockupPreset.id q))
      as [E | E].
    + split; [| reflexivity]. intros _.
      apply preset_ids_unique; [exact Hq | exact Hin | congruence].
    + split; [discriminate |]. intros ->. congruence.
  - intro Hb. apply trim_nil_iff in Hb.
    apply finalPrompt_preset; assumption.
Qed.

Lemma reachable_selection_is_a_catalog_preset_witness :
  let w :=
    steadyWorld (Fulfilled (contentResponse [imagePart (lit "QUJD")]))
      (Fulfilled (imagesResponse [lit "REVG"])) 1700000000000 in
  let sign :=
    MockupPreset.mk (lit "sign") (lit "Neon Sign") [0x2728]
      (lit "A glowing neon sign on a brick wall in the shape and style of this image. Night time atmosphere.") in
  let evs :=
    [(w, App.PromptChanged (lit "on a red car"));
     (w, App.PresetClicked sign);
     (w, App.GenerateImageClicked)] in
  exists preset,
    In preset App.MOCKUP_PRESETS /\
    MockupPreset.id preset =
      selectedPreset (app (App.play evs (App.mount App.initialState))).
Proof.
  intros w sign evs.
  assert (Hall : Forall (fun we => rendered (snd we)) evs).
  { constructor; [exact I |]. constructor; [| constructor; [exact I |]].
    - simpl. do 5 right. left. reflexivity.
    - constructor. }
  destruct (reachable_selection_is_a_catalog_preset evs Hall)
    as (preset & Hin & Hid & _).
  exists preset. split; [exact Hin | exact Hid].
Defined.

(* ================================================================= *)
(** ** Submissions and the other inputs *)

Ltac mockup_cases w m :=
  let uploaded := fresh "uploaded" in
  let Hup := fresh "Hup" in
  let Htr := fresh "Htr" in
  destruct (uploadedImage (app m)) as [uploaded |] eqn:Hup;
  [ destruct (truthy uploaded) eqn:Htr;
    [ rewrite (dispatch_mockup w m uploaded Hup Htr); cbv zeta;
      destruct (outcome w (mockupCall (app m) uploaded))
    | rewrite dispatch_mockup_blocked by (rewrite Hup; exact Htr) ]
  | rewrite dispatch_mockup_blocked by (rewrite Hup; exact I) ].

Ltac image_cases w m :=
  let Htr := fresh "Htr" in
  destruct (truthy (trim (prompt (app m)))) eqn:Htr;
  [ rewrite (dispatch_image w m Htr); cbv zeta;
    destruct (outcome w (imageCall (app m)))
  | rewrite (dispatch_image_blocked w m Htr) ].

(** X11.  A click on either submit button, whether it is blocked, fails or
    succeeds, leaves the mode, the uploaded image and its MIME type, the
    typed prompt, the selected preset and the selected aspect ratio as
    they were: nothing the user entered is lost by submitting. *)
Theorem submit_keeps_inputs :
  forall (w : World) (m : Machine) (ev : App.UiEvent),
    ev = App.GenerateMockupClicked \/ ev = App.GenerateImageClicked ->
    let st' := app (App.dispatch w ev m) in
    mode st' = mode (app m) /\
    uploadedImage st' = uploadedImage (app m) /\
    uploadedMimeType st' = uploadedMimeType (app m) /\
    prompt st' = prompt (app m) /\
    selectedPreset st' = selectedPreset (app m) /\
    selectedAspectRatio st' = selectedAspectRatio (app m).
Proof.
  intros w m ev [-> | ->] st'; subst st'.
  - mockup_cases w m;
      repeat match goal with |- _ /\ _ => split end; simpl; congruence.
  - image_cases w m;
      repeat match goal with |- _ /\ _ => split end; simpl; congruence.
Qed.

Lemma submit_keeps_inputs_witness :
  let w :=
    steadyWorld (Fulfilled (contentResponse [imagePart (lit "QUJD")]))
      (Rejected (Error (lit "quota exceeded"))) 1700000000000 in
  let m :=
    App.mount
      (mkAppState IMAGE_GEN (Some (lit "data:image/png;base64,iVBORw0KGgo="))
         (lit "image/png") (lit " a fox ") false [] (lit "tote") TALL) in
  prompt (app (App.dispatch w App.GenerateImageClicked m)) = lit " a fox " /\
  prompt (app (App.dispatch w App.GenerateMockupClicked m)) = lit " a fox ".
Proof.
  intros w m. split.
  - destruct (submit_keeps_inputs w m App.GenerateImageClicked
                (or_intror eq_refl)) as (_ & _ & _ & Hp & _).
    exact Hp.
  - destruct (submit_keeps_inputs w m App.GenerateMockupClicked
                (or_introl eq_refl)) as (_ & _ & _ & Hp & _).
    exact Hp.
Defined.



(** X13.  Clicking a preset button of the catalog and then Generate Mockup
    sends that preset's template, whatever had been typed in the text area
    before. *)
Theorem preset_then_mockup_sends_template :
  forall (w1 w2 : World) (m : Machine) (preset : MockupPreset.t)
         (uploaded : jsstring),
    In preset App.MOCKUP_PRESETS ->
    uploadedImage (app m) = Some uploaded ->
    truthy uploaded = true ->
    contentRequests
      (trace (App.play [(w1, App.PresetClicked preset);
                        (w2, App.GenerateMockupClicked)] m)) =
    mockupRequest (base64Of uploaded) (uploadedMimeType (app m))
      (MockupPreset.promptTemplate preset) :: contentRequests (trace m).
Proof.
  intros w1 w2 m preset uploaded Hin Hup Htr. simpl App.play.
  set (m1 := App.dispatch w1 (App.PresetClicked preset) m).
  assert (Hup1 : uploadedImage (app m1) = Some uploaded) by exact Hup.
  rewrite (mockup_sends w2 m1 uploaded Hup1 Htr).
  rewrite (finalPrompt_preset (app m1) preset); [reflexivity | | exact Hin |];
    reflexivity.
Qed.

Lemma preset_then_mockup_sends_template_witness :
  let w :=
    steadyWorld (Fulfilled (contentResponse [imagePart (lit "QUJD")]))
      (Rejected (Error [])) 1700000000000 in
  let sticker :=
    MockupPreset.mk (lit "sticker") (lit "Laptop Sticker") [0xD83D; 0xDCBB]
      (lit "A die-cut vinyl sticker of this image stuck on a silver laptop cover. Close up macro shot.") in
  let uploaded := lit "data:image/png;base64,iVBORw0KGgo=" in
  let m :=
    App.mount
      (mkAppState MOCKUP (Some uploaded) (lit "image/png")
         (lit "on a red car") false [] (lit "mug") SQUARE) in
  In sticker App.MOCKUP_PRESETS /\
  contentRequests
    (trace (App.play [(w, App.PresetClicked sticker);
                      (w, App.GenerateMockupClicked)] m)) =
  [mockupRequest (Some (lit "iVBORw0KGgo=")) (lit "image/png")
     (lit "A die-cut vinyl sticker of this image stuck on a silver laptop cover. Close up macro shot.")].
Proof.
  intros w sticker uploaded m.
  assert (Hin : In sticker App.MOCKUP_PRESETS).
  { do 4 right. left. reflexivity. }
  split; [exact Hin |].
  exact (preset_then_mockup_sends_template w w m sticker uploaded
           Hin eq_refl eq_refl).
Defined.

(** X14.  Right after a click on a mode button or on a preset button the
    prompt is empty, so Generate Image does nothing at all until
    something is typed. *)
Theorem image_submit_blocked_after_clear :
  forall (w1 w2 : World) (m : Machine) (ev : App.UiEvent),
    (exists target, ev = App.ModeClicked target) \/
    (exists preset, ev = App.PresetClicked preset) ->
    App.play [(w1, ev); (w2, App.GenerateImageClicked)] m =
    App.dispatch w1 ev m.
Proof.
  intros w1 w2 m ev [[target ->] | [preset ->]]; simpl App.play;
    apply dispatch_image_blocked; reflexivity.
Qed.

Lemma image_submit_blocked_after_clear_witness :
  let w :=
    steadyWorld (Rejected (Error []))
      (Fulfilled (imagesResponse [lit "REVG"])) 1700000000000 in
  let m :=
    App.mount
      (mkAppState MOCKUP None (lit "image/png") (lit "a fox") false []
         (lit "mug") TALL) in
  imagesRequests
    (trace (App.play [(w, App.ModeClicked IMAGE_GEN);
                      (w, App.GenerateImageClicked)] m)) = [].
Proof.
  intros w m.
  rewrite (image_submit_blocked_after_clear w w m (App.ModeClicked IMAGE_GEN)
             (or_introl (ex_intro _ IMAGE_GEN eq_refl))).
  reflexivity.
Defined.

(* ================================================================= *)
(** ** The service calls as seen from outside *)

(** X17.  Each service call contacts its endpoint exactly once, whether
    the call then returns or throws (no retry), contacts no other
    endpoint, raises no alert, reads no clock and changes no state
    cell. *)
Theorem service_calls_once_and_touch_nothing :
  forall (w : World) (m : Machine),
    (forall (b64 : option jsstring) (mime p : jsstring),
        let m' := exec w (GeminiService.generateMockup b64 mime p) m in
        contentRequests (trace m') =
          mockupRequest b64 mime p :: contentRequests (trace m) /\
        imagesRequests (trace m') = imagesRequests (trace m) /\
        alerts (trace m') = alerts (trace m) /\
        ticks m' = ticks m /\
        app m' = app m)
    /\
    (forall (p : jsstring) (r : AspectRatio),
        let m' := exec w (GeminiService.generateImage p r) m in
        imagesRequests (trace m') =
          imageRequest p r :: imagesRequests (trace m) /\
        contentRequests (trace m') = contentRequests (trace m) /\
        alerts (trace m') = alerts (trace m) /\
        ticks m' = ticks m /\
        app m' = app m).
Proof.
  intros w m. split.
  - intros b64 mime p m'. subst m'. unfold exec.
    rewrite run_generateMockup. cbv zeta.
    destruct (outcome w (GeminiService.generateMockup b64 mime p));
      repeat (split; [reflexivity |]); reflexivity.
  - intros p r m'. subst m'. unfold exec.
    rewrite run_generateImage. cbv zeta.
    destruct (outcome w (GeminiService.generateImage p r));
      repeat (split; [reflexivity |]); reflexivity.
Qed.

(** X18.  [generateMockup] returns exactly when the endpoint answers and
    the first part of the first candidate carries inline data, and it then
    returns that data behind the [data:image/png;base64,] prefix; when it
    throws, the error is the endpoint's own rejection or the error
    "No image generated in response". *)
Theorem generateMockup_returns_iff :
  forall (w : World) (b64 : option jsstring) (mime p : jsstring)
         (m : Machine),
    (forall u,
        result w (GeminiService.generateMockup b64 mime p) m = Fulfilled u <->
        exists resp c cs ct part ps blob,
          generateContent w (mockupRequest b64 mime p) = Fulfilled resp /\
          Response.candidates resp = Some (c :: cs) /\
          Response.content c = Some ct /\
          Response.parts ct = Some (part :: ps) /\
          Response.inlineData part = Some blob /\
          u = lit "data:image/png;base64," ++ Response.data blob)
    /\
    (forall e,
        result w (GeminiService.generateMockup b64 mime p) m = Rejected e ->
        generateContent w (mockupRequest b64 mime p) = Rejected e \/
        e = Error (lit "No image generated in response")).
Proof.
  intros w b64 mime p m.
  unfold result, GeminiService.generateMockup, mockupRequest. simpl.
  set (req := Request.mkGenerateContent _ _ _).
  destruct (generateContent w req) as [resp | e0] eqn:Hw; simpl.
  - unfold GeminiService.firstCandidateParts,
      GeminiService.firstPartInlineData.
    destruct resp as [[[| [[[[[| [[blob |] t] ps] |]] |]] cs] |]]; simpl;
      (split;
       [ intro u; split;
         [ intro H; try discriminate
         | intros (resp' & c' & cs' & ct' & part' & ps' & blob' & Hr & Hc
                   & Hct & Hps & Hp & Hu);
           injection Hr as <-; simpl in Hc; try discriminate;
           injection Hc as <- <-; simpl in Hct; try discriminate;
           injection Hct as <-; simpl in Hps; try discriminate;
           injection Hps as <- <-; simpl in Hp; try discriminate ]
       | intros e H; right; congruence ]).
    + injection H as <-.
      do 7 eexists. repeat (split; [reflexivity |]). reflexivity.
    + injection Hp as <-. rewrite Hu. reflexivity.
  - split.
    + intro u. split; [discriminate |].
      intros (resp' & c' & cs' & ct' & part' & ps' & blob' & Hr & _).
      discriminate.
    + intros e H. left. congruence.
Qed.

Lemma generateMockup_returns_iff_witness :
  let quota := Error (lit "quota exceeded") in
  let resp := contentResponse [imagePart (lit "QUJD")] in
  let m := App.mount App.initialState in
  let call := GeminiService.generateMockup (Some (lit "AAAA")) (lit "image/png")
                (lit "on a red car") in
  result (steadyWorld (Fulfilled resp) (Rejected (Error [])) 0) call m =
    Fulfilled (lit "data:image/png;base64," ++ lit "QUJD")
  /\
  (generateContent (steadyWorld (Rejected quota) (Rejected (Error [])) 0)
     (mockupRequest (Some (lit "AAAA")) (lit "image/png")
        (lit "on a red car")) = Rejected quota
   \/ quota = Error (lit "No image generated in response")).
Proof.
  intros quota resp m call. split.
  - apply (proj1 (generateMockup_returns_iff
                    (steadyWorld (Fulfilled resp) (Rejected (Error [])) 0)
                    (Some (lit "AAAA")) (lit "image/png")
                    (lit "on a red car") m)).
    exists resp,
      (Response.mkCandidate
         (Some (Response.mkContent (Some [imagePart (lit "QUJD")])))),
      [], (Response.mkContent (Some [imagePart (lit "QUJD")])),
      (imagePart (lit "QUJD")), [], (Response.mkBlob (lit "QUJD")).
    repeat (split; [reflexivity |]). reflexivity.
  - apply (proj2 (generateMockup_returns_iff
                    (steadyWorld (Rejected quota) (Rejected (Error [])) 0)
                    (Some (lit "AAAA")) (lit "image/png")
                    (lit "on a red car") m)).
    reflexivity.
Defined.

(* ================================================================= *)
(** ** Errors stop at the handlers *)

(** X19.  No handler of the page ever throws: whatever the state it was
    rendered in, the machine it runs on and the answers of the endpoints,
    it runs to its end and returns.  The errors of the service calls are
    all caught inside the two submit handlers. *)
Theorem handlers_never_throw :
  forall (w : World) (ev : App.UiEvent) (st : AppState) (m : Machine),
    result w (App.handler ev st) m = Fulfilled tt.
Proof.
  intros w ev st m. unfold result.
  destruct ev as [file | | | item | preset | target | value | ratio];
    try reflexivity.
  - destruct file; reflexivity.
  - unfold App.handler, App.handleMockupGenerate.
    destruct (uploadedImage st) as [uploaded |]; [| reflexivity].
    destruct (truthy uploaded); [| reflexivity]. cbn [negb].
    rewrite run_bind. cbn [call run fst snd answer perform update advance].
    rewrite run_tryFinally, run_tryCatch, run_bind, run_generateMockup.
    cbv zeta.
    destruct (outcome w _) as [u | e]; reflexivity.
  - unfold App.handler, App.handleImageGenerate.
    destruct (truthy (trim (prompt st))); [| reflexivity]. cbn [negb].
    rewrite run_bind. cbn [call run fst snd answer perform update advance].
    rewrite run_tryFinally, run_tryCatch, run_bind, run_generateImage.
    cbv zeta.
    destruct (outcome w _) as [u | e]; reflexivity.
Qed.

